(** * The offline cache manager (service worker) of the Bastelglueck site

    A shallow embedding of the service worker script of the repository:
    its install, activate, fetch and message handlers, over an explicit
    model of the browser facilities the script calls (Cache Storage, the
    network, the console, message ports).

    Promises are modelled by a state-and-error monad over the [world]:
    a promise that fulfils yields [Fulfilled v], a promise that rejects
    (or a handler body that throws) yields [Rejected e].  A promise chain
    [p.then(f).catch(g)] is [catch_ (let* x := p in f x) g].  A promise that the
    script starts but neither returns nor awaits (the cache write of the
    fetch handler) becomes a [task] queued in the world and is run later by
    [run_pending]. *)

From Stdlib Require Import String Ascii ZArith List Bool.
From stdpp Require Import gmap strings list pretty.

Local Open Scope string_scope.
Local Open Scope Z_scope.

#[local] Set Warnings "-clear-no-such-hyp".

(** ** Strings as the script uses them *)

(** [String.prototype.startsWith]: [startsWith s p] is [s.startsWith(p)]. *)
Definition startsWith (s p : string) : bool := String.prefix p s.

(** [String.prototype.includes]: [includes s p] is [s.includes(p)]. *)
Fixpoint includes (s p : string) : bool :=
  startsWith s p ||
  match s with
  | EmptyString => false
  | String _ s' => includes s' p
  end.

(** ASCII lower-casing, used for header names (the [Headers] object
    compares names case-insensitively). *)
Definition lower_ascii (c : ascii) : ascii :=
  let n := nat_of_ascii c in
  if (Nat.leb 65 n && Nat.leb n 90)%bool then ascii_of_nat (n + 32) else c.

Fixpoint toLowerCase (s : string) : string :=
  match s with
  | EmptyString => EmptyString
  | String c s' => String (lower_ascii c) (toLowerCase s')
  end.

(** ** Data model *)

(** [Response.type]. *)
Inductive response_type : Type :=
  | Basic | Cors | Default | ErrorType | Opaque | OpaqueRedirect.

#[global] Instance response_type_eq_dec : EqDecision response_type.
Proof. solve_decision. Defined.

Definition response_type_eqb (a b : response_type) : bool := bool_decide (a = b).

(** A [Headers] object: names are kept lower-cased. *)
Definition headers := list (string * string).

Fixpoint assoc (name : string) (h : headers) : option string :=
  match h with
  | [] => None
  | (k, v) :: h' => if String.eqb k name then Some v else assoc name h'
  end.

(** [Headers.prototype.get]: [None] is JavaScript's [null]. *)
Definition headers_get (h : headers) (name : string) : option string :=
  assoc (toLowerCase name) h.

Record response : Type := Response {
  status : Z;
  type : response_type;
  redirected : bool;
  resp_headers : headers;
  body : string
}.

Record request : Type := Request {
  method : string;
  url : string;
  req_headers : headers
}.

(** [Response.ok]: the status is in the range 200..299. *)
Definition ok (r : response) : bool := (200 <=? status r) && (status r <=? 299).

(** [Response.prototype.clone]: an independent copy with the same content. *)
Definition clone (r : response) : response := r.

(** A value a promise of the script may fulfil with where a [Response] is
    expected: [None] is [undefined]. *)
Definition js_response := option response.

(** JavaScript truthiness of such a value: objects are truthy,
    [undefined] is falsy. *)
Definition truthy (v : js_response) : bool :=
  match v with Some _ => true | None => false end.

(** Errors a promise rejects with (or a handler throws). *)
Inductive error : Type :=
  | NetworkError (reason : string)
  | TypeError (reason : string).

Inductive outcome (A : Type) : Type :=
  | Fulfilled (a : A)
  | Rejected (e : error).
Arguments Fulfilled {A} a.
Arguments Rejected {A} e.

(** ** The world *)

(** One [Cache]: request URL to stored response. *)
Abbreviation cache := (gmap string response).

Inductive console_entry : Type :=
  | ConsoleLog (args : list string)
  | ConsoleError (msg : string) (e : error).

(** A message delivered on a [MessagePort]: the script only ever posts
    [{version: v}]. *)
Record posted_message : Type := VersionMessage { version : string }.

(** Work the script started without awaiting it:
    [caches.open(name).then(cache => { cache.put(request, response) })]. *)
Inductive task : Type :=
  | OpenAndPut (name : string) (request_url : string) (r : response).

Record world : Type := World {
  caches : list (string * cache);        (* CacheStorage, in creation order *)
  console : list console_entry;          (* oldest first *)
  net_calls : list string;               (* URLs fetched from the network *)
  skip_waiting : bool;                   (* self.skipWaiting() was called *)
  clients_claimed : bool;                (* self.clients.claim() was called *)
  posted : list (nat * posted_message);  (* (port, message), oldest first *)
  pending : list task                    (* unawaited work, oldest first *)
}.

Definition set_caches (cs : list (string * cache)) (w : world) : world :=
  World cs (console w) (net_calls w) (skip_waiting w) (clients_claimed w)
        (posted w) (pending w).

Definition add_console (e : console_entry) (w : world) : world :=
  World (caches w) (console w ++ [e]) (net_calls w) (skip_waiting w)
        (clients_claimed w) (posted w) (pending w).

Definition add_net_call (u : string) (w : world) : world :=
  World (caches w) (console w) (net_calls w ++ [u]) (skip_waiting w)
        (clients_claimed w) (posted w) (pending w).

Definition set_skip_waiting (w : world) : world :=
  World (caches w) (console w) (net_calls w) true (clients_claimed w)
        (posted w) (pending w).

Definition set_clients_claimed (w : world) : world :=
  World (caches w) (console w) (net_calls w) (skip_waiting w) true
        (posted w) (pending w).

Definition add_posted (port : nat) (m : posted_message) (w : world) : world :=
  World (caches w) (console w) (net_calls w) (skip_waiting w)
        (clients_claimed w) (posted w ++ [(port, m)]) (pending w).

Definition set_pending (ts : list task) (w : world) : world :=
  World (caches w) (console w) (net_calls w) (skip_waiting w)
        (clients_claimed w) (posted w) ts.

(** ** Cache Storage *)

Module CacheStorage.

(** [caches.keys()]: the partition names, in creation order. *)
Definition keys (cs : list (string * cache)) : list string := map fst cs.

Definition has (name : string) (cs : list (string * cache)) : bool :=
  existsb (String.eqb name) (keys cs).

(** The partition called [name], when there is one. *)
Fixpoint lookup (name : string) (cs : list (string * cache)) : option cache :=
  match cs with
  | [] => None
  | (n, c) :: cs' => if String.eqb n name then Some c else lookup name cs'
  end.

(** [caches.open(name)] creates the partition when it is missing. *)
Definition open (name : string) (cs : list (string * cache))
  : list (string * cache) :=
  if has name cs then cs else cs ++ [(name, ∅)].

(** [caches.delete(name)]. *)
Definition delete (name : string) (cs : list (string * cache))
  : list (string * cache) :=
  List.filter (fun nc => negb (String.eqb (fst nc) name)) cs.

(** [cache.put(url, r)] on the partition called [name]. *)
Definition put (name url : string) (r : response) (cs : list (string * cache))
  : list (string * cache) :=
  map (fun nc => if String.eqb (fst nc) name
                 then (fst nc, <[url := r]> (snd nc)) else nc) cs.

(** [caches.match(url)]: the partitions are searched in creation order,
    the first entry found wins; [None] is [undefined]. *)
Fixpoint match_ (u : string) (cs : list (string * cache)) : js_response :=
  match cs with
  | [] => None
  | (_, c) :: cs' =>
      match c !! u with
      | Some r => Some r
      | None => match_ u cs'
      end
  end.

End CacheStorage.

(** ** Promises *)

Definition promise (A : Type) : Type := world -> outcome A * world.

(** [Promise.resolve(a)], or a callback returning [a]. *)
Definition ret {A} (a : A) : promise A := fun w => (Fulfilled a, w).

(** [Promise.reject(e)], or a callback throwing [e]. *)
Definition throw {A} (e : error) : promise A := fun w => (Rejected e, w).

(** [p.then(f)]: a rejection of [p] skips [f]. *)
Definition then_ {A B} (p : promise A) (f : A -> promise B) : promise B :=
  fun w =>
    match p w with
    | (Fulfilled a, w') => f a w'
    | (Rejected e, w') => (Rejected e, w')
    end.

(** [p.catch(g)]: a fulfilment of [p] skips [g]. *)
Definition catch_ {A} (p : promise A) (g : error -> promise A) : promise A :=
  fun w =>
    match p w with
    | (Fulfilled a, w') => (Fulfilled a, w')
    | (Rejected e, w') => g e w'
    end.

Declare Scope promise_scope.
Delimit Scope promise_scope with promise.
Notation "'let*' x ':=' p 'in' k" := (then_ p (fun x => k))
  (at level 10, x name, p at level 99, k at level 200) : promise_scope.
Notation "p '>>' k" := (then_ p (fun _ => k))
  (at level 100, k at level 200, right associativity) : promise_scope.
Local Open Scope promise_scope.

(** [Promise.all(ps)]: every promise of the array has been started, so all
    of them run; the result rejects with the first rejection. *)
Fixpoint promise_all {A} (ps : list (promise A)) : promise (list A) :=
  match ps with
  | [] => ret []
  | p :: ps' =>
      fun w =>
        let (o, w1) := p w in
        let (os, w2) := promise_all ps' w1 in
        (match o, os with
         | Fulfilled a, Fulfilled l => Fulfilled (a :: l)
         | Rejected e, _ => Rejected e
         | Fulfilled _, Rejected e => Rejected e
         end, w2)
  end.

(** [event.waitUntil(p)] and [event.respondWith(p)] hand [p] to the
    browser: the event lasts until [p] settles and its outcome is the
    outcome of the event. *)
Definition waitUntil {A} (p : promise A) : promise A := p.

(** ** Browser facilities *)

Definition console_log (args : list string) : promise unit :=
  fun w => (Fulfilled tt, add_console (ConsoleLog args) w).

Definition console_error (msg : string) (e : error) : promise unit :=
  fun w => (Fulfilled tt, add_console (ConsoleError msg e) w).

Definition skipWaiting : promise unit :=
  fun w => (Fulfilled tt, set_skip_waiting w).

Definition clients_claim : promise unit :=
  fun w => (Fulfilled tt, set_clients_claimed w).

(** A [Cache] object is referred to by the name of its partition. *)
Definition caches_open (name : string) : promise string :=
  fun w => (Fulfilled name, set_caches (CacheStorage.open name (caches w)) w).

(** [caches.delete(name)] fulfils with whether the partition existed. *)
Definition caches_delete (name : string) : promise bool :=
  fun w => (Fulfilled (CacheStorage.has name (caches w)),
            set_caches (CacheStorage.delete name (caches w)) w).

Definition caches_keys : promise (list string) :=
  fun w => (Fulfilled (CacheStorage.keys (caches w)), w).

Definition caches_match (u : string) : promise js_response :=
  fun w => (Fulfilled (CacheStorage.match_ u (caches w)), w).

Definition cache_put (cache_name u : string) (r : response) : promise unit :=
  fun w => (Fulfilled tt, set_caches (CacheStorage.put cache_name u r (caches w)) w).

(** Starting a promise without awaiting it. *)
Definition spawn (t : task) : promise unit :=
  fun w => (Fulfilled tt, set_pending (pending w ++ [t]) w).

(** [ports[i].postMessage(m)]: [ports[i]] is [undefined] when the event
    carries no such port, and calling a method of [undefined] throws. *)
Definition port_postMessage (ports : list nat) (i : nat) (m : posted_message)
  : promise unit :=
  match nth_error ports i with
  | Some port => fun w => (Fulfilled tt, add_posted port m w)
  | None => throw (TypeError "Cannot read properties of undefined")
  end.

(** ** The script's constants *)

Definition CACHE_NAME : string := "bastelglueck-v1".
Definition STATIC_CACHE : string := "bastelglueck-static-v1".
Definition DYNAMIC_CACHE : string := "bastelglueck-dynamic-v1".

Definition STATIC_FILES : list string :=
  [ "/";
    "/index.html";
    "/css/styles.css";
    "/js/main.js";
    "/manifest.json";
    "/files/DSC_5600.jpeg" ].

(** The double-quote character, for the markup of the placeholder image. *)
Definition dq : string := String (ascii_of_nat 34) EmptyString.

Definition placeholder_svg : string :=
  "<svg xmlns=" ++ dq ++ "http://www.w3.org/2000/svg" ++ dq
  ++ " width=" ++ dq ++ "200" ++ dq ++ " height=" ++ dq ++ "200" ++ dq
  ++ " viewBox=" ++ dq ++ "0 0 200 200" ++ dq ++ ">"
  ++ "<rect width=" ++ dq ++ "200" ++ dq ++ " height=" ++ dq ++ "200" ++ dq
  ++ " fill=" ++ dq ++ "#f0f0f0" ++ dq ++ "/>"
  ++ "<text x=" ++ dq ++ "100" ++ dq ++ " y=" ++ dq ++ "100" ++ dq
  ++ " text-anchor=" ++ dq ++ "middle" ++ dq ++ " fill=" ++ dq ++ "#999" ++ dq
  ++ ">Bild nicht verfügbar</text></svg>".

(** [new Response(body, { headers: h })]: status 200, type "default". *)
Definition new_Response (b : string) (h : headers) : response :=
  Response 200 Default false h b.

Definition placeholder_image : response :=
  new_Response placeholder_svg [("content-type", "image/svg+xml")].

(** ** Events *)

Record message_data : Type := MessageData { data_type : string }.

(** A message event: [data] is [None] when [event.data] is falsy. *)
Record message_event : Type := MessageEvent {
  data : option message_data;
  ports : list nat
}.

(** [event.data && event.data.type === t]. *)
Definition data_type_is (event : message_event) (t : string) : bool :=
  match data event with
  | Some d => String.eqb (data_type d) t
  | None => false
  end.

(** What a fetch event ends in: the handler returned without calling
    [event.respondWith] (the browser handles the request as if there were no
    worker), or it called [event.respondWith(p)] and [p] settled as given. *)
Inductive fetch_disposition : Type :=
  | PassThrough
  | RespondWith (o : outcome js_response).

(** ** The worker *)

Section Worker.

(** [self.location.origin]. *)
Variable origin : string.

(** The network: what [fetch(request)] settles with. *)
Variable net : request -> outcome response.

(** A root-relative path resolved against the worker's location. *)
Definition resolve (path : string) : string := origin ++ path.

(** The request [fetch(u)] and [cache.add(u)] make from a URL string. *)
Definition get_request (u : string) : request := Request "GET" u [].

Definition fetch (rq : request) : promise response :=
  fun w => (net rq, add_net_call (url rq) w).

(** The fetching half of [cache.addAll(paths)]: a path whose fetch
    rejects, or whose response is not ok or is partial (206), rejects the
    whole call. *)
Fixpoint fetch_all (paths : list string) : promise (list (string * response)) :=
  match paths with
  | [] => ret []
  | path :: paths' =>
      let* r := fetch (get_request (resolve path)) in
      if ok r && negb (status r =? 206)
      then let* rs := fetch_all paths' in ret ((resolve path, r) :: rs)
      else throw (TypeError "Request failed")
  end.

Fixpoint put_all (cache_name : string) (entries : list (string * response))
  : promise unit :=
  match entries with
  | [] => ret tt
  | (u, r) :: entries' => cache_put cache_name u r >> put_all cache_name entries'
  end.

(** [cache.addAll(paths)]: all or nothing. *)
Definition cache_addAll (cache_name : string) (paths : list string) : promise unit :=
  let* entries := fetch_all paths in put_all cache_name entries.

(** [self.addEventListener('install', ...)] *)
Definition on_install : promise unit :=
  console_log ["Service Worker: Installing..."] >>
  waitUntil
    (catch_
       (let* cache := caches_open STATIC_CACHE in
        console_log ["Service Worker: Caching static files"] >>
        cache_addAll cache STATIC_FILES >>
        console_log ["Service Worker: Static files cached"] >>
        skipWaiting)
       (fun error =>
          console_error "Service Worker: Error caching static files" error)).

(** [self.addEventListener('activate', ...)] *)
Definition on_activate : promise unit :=
  console_log ["Service Worker: Activating..."] >>
  waitUntil
    (let* cacheNames := caches_keys in
     promise_all
       (map (fun cacheName =>
               if negb (String.eqb cacheName STATIC_CACHE)
                  && negb (String.eqb cacheName DYNAMIC_CACHE)
               then
                 console_log ["Service Worker: Deleting old cache"; cacheName] >>
                 caches_delete cacheName >> ret tt
               else ret tt)
            cacheNames) >>
     console_log ["Service Worker: Activated"] >>
     clients_claim).

(** [event.request.headers.get('accept').includes(s)]: [get] gives [null]
    when the request has no accept header, and [null.includes] throws. *)
Definition accept_includes (rq : request) (s : string) : promise bool :=
  match headers_get (req_headers rq) "accept" with
  | Some accept => ret (includes accept s)
  | None => throw (TypeError "Cannot read properties of null")
  end.

(** The promise the fetch handler passes to [event.respondWith]. *)
Definition respond (rq : request) : promise js_response :=
  let* response := caches_match (url rq) in
  if truthy response then
    console_log ["Service Worker: Cache hit for"; url rq] >>
    ret response
  else
    console_log ["Service Worker: Cache miss for"; url rq] >>
    catch_
      (let* fetchResponse := fetch rq in
       if negb (truthy (Some fetchResponse))
          || negb (status fetchResponse =? 200)
          || negb (response_type_eqb (type fetchResponse) Basic)
       then ret (Some fetchResponse)
       else
         let responseToCache := clone fetchResponse in
         spawn (OpenAndPut DYNAMIC_CACHE (url rq) responseToCache) >>
         ret (Some fetchResponse))
      (fun error =>
         console_error "Service Worker: Fetch failed" error >>
         let* html := accept_includes rq "text/html" in
         if html then caches_match (resolve "/index.html")
         else
           let* image := accept_includes rq "image" in
           if image then ret (Some placeholder_image)
           else throw error).

(** [self.addEventListener('fetch', ...)] *)
Definition on_fetch (rq : request) (w : world) : fetch_disposition * world :=
  if negb (String.eqb (method rq) "GET") then (PassThrough, w)
  else if negb (startsWith (url rq) origin) then (PassThrough, w)
  else let (o, w') := respond rq w in (RespondWith o, w').

(** [self.addEventListener('message', ...)] *)
Definition on_message (event : message_event) : promise unit :=
  console_log ["Service Worker: Message received";
               match data event with Some d => data_type d | None => "null" end] >>
  (if data_type_is event "SKIP_WAITING" then skipWaiting else ret tt) >>
  (if data_type_is event "GET_VERSION"
   then port_postMessage (ports event) 0 (VersionMessage CACHE_NAME)
   else ret tt) >>
  (if data_type_is event "CACHE_UPDATE"
   then waitUntil
          (caches_delete STATIC_CACHE >>
           let* cache := caches_open STATIC_CACHE in
           cache_addAll cache STATIC_FILES)
   else ret tt).

(** Unawaited work runs after the handler that started it. *)
Definition run_task (t : task) : promise unit :=
  match t with
  | OpenAndPut name u r => let* cache := caches_open name in cache_put cache u r
  end.

Definition run_pending (w : world) : world :=
  fold_left (fun w' t => snd (run_task t w')) (pending w) (set_pending [] w).

End Worker.

(** ** Origins *)

(** The authority of a URL ends at the first [/], [?] or [#]. *)
Fixpoint take_authority (s : string) : string :=
  match s with
  | EmptyString => EmptyString
  | String c s' =>
      if Ascii.eqb c "/" || Ascii.eqb c "?" || Ascii.eqb c "#"
      then EmptyString
      else String c (take_authority s')
  end.

Fixpoint drop_chars (n : nat) (s : string) : string :=
  match n, s with
  | S n', String _ s' => drop_chars n' s'
  | _, _ => s
  end.

(** The serialised origin of an absolute URL, [scheme://host[:port]]:
    what [new URL(u).origin] gives for the http(s) URLs a request carries
    (a request URL is normalised: no credentials, default port dropped). *)
Fixpoint url_origin (u : string) : string :=
  match u with
  | EmptyString => EmptyString
  | String c u' =>
      if startsWith u "://"
      then "://" ++ take_authority (drop_chars 3 u)
      else String c (url_origin u')
  end.

(** ** Sample worlds and networks *)

Definition empty_world : world := World [] [] [] false false [] [].

Definition site_origin : string := "https://netzscout.github.io".

Definition page (b : string) : response :=
  Response 200 Basic false [("content-type", "text/html")] b.

(** A network on which every request succeeds with a small page. *)
Definition net_up (rq : request) : outcome response :=
  Fulfilled (page ("content of " ++ url rq)).

(** A network that is unreachable. *)
Definition net_down (rq : request) : outcome response :=
  Rejected (NetworkError "Failed to fetch").

(** A network that answers every request with 204 No Content. *)
Definition net_no_content (rq : request) : outcome response :=
  Fulfilled (Response 204 Basic false [] EmptyString).

(** ** Notions the statements use *)

(** The fetch handler's own test for a response worth storing. *)
Definition cacheable (r : response) : bool :=
  (status r =? 200) && response_type_eqb (type r) Basic.

(** The entry of the dynamic cache for a URL, when there is one. *)
Definition dynamic_entry (u : string) (w : world) : option response :=
  match CacheStorage.lookup DYNAMIC_CACHE (caches w) with
  | Some c => c !! u
  | None => None
  end.

(** The entry of the static cache for a URL, when there is one. *)
Definition static_entry (u : string) (w : world) : option response :=
  match CacheStorage.lookup STATIC_CACHE (caches w) with
  | Some c => c !! u
  | None => None
  end.

Definition task_cache (t : task) : string :=
  match t with OpenAndPut name _ _ => name end.

(** [cache.addAll(paths)] can succeed: every path is answered by the
    network with an ok, non-partial response. *)
Definition paths_ok (origin : string) (net : request -> outcome response)
    (paths : list string) : bool :=
  forallb (fun path =>
             match net (get_request (resolve origin path)) with
             | Fulfilled r => ok r && negb (status r =? 206)
             | Rejected _ => false
             end) paths.

Definition manifest_ok (origin : string) (net : request -> outcome response)
  : bool :=
  paths_ok origin net STATIC_FILES.

(** The entries [cache.addAll(paths)] stores when it succeeds. *)
Fixpoint entries_of (origin : string) (net : request -> outcome response)
    (paths : list string) : list (string * response) :=
  match paths with
  | [] => []
  | path :: paths' =>
      match net (get_request (resolve origin path)) with
      | Fulfilled r => (resolve origin path, r) :: entries_of origin net paths'
      | Rejected _ => entries_of origin net paths'
      end
  end.

(** Storing a list of entries in the partition called [name]. *)
Definition store_all (name : string) (entries : list (string * response))
    (cs : list (string * cache)) : list (string * cache) :=
  fold_left (fun cs' e => CacheStorage.put name (fst e) (snd e) cs') entries cs.

(** The same entries inserted in one cache. *)
Definition insert_all (entries : list (string * response)) (c : cache) : cache :=
  fold_left (fun c' e => <[fst e := snd e]> c') entries c.

(** The activate handler's test for a partition to delete. *)
Definition stale (cacheName : string) : bool :=
  negb (String.eqb cacheName STATIC_CACHE)
  && negb (String.eqb cacheName DYNAMIC_CACHE).

(** Deleting, among the given names, the stale ones. *)
Definition sweep (names : list string) (cs : list (string * cache))
  : list (string * cache) :=
  fold_left (fun cs' n => if stale n then CacheStorage.delete n cs' else cs')
            names cs.

(** The callback the activate handler maps over the partition names. *)
Definition delete_if_stale (cacheName : string) : promise unit :=
  if negb (String.eqb cacheName STATIC_CACHE)
     && negb (String.eqb cacheName DYNAMIC_CACHE)
  then
    console_log ["Service Worker: Deleting old cache"; cacheName] >>
    caches_delete cacheName >> ret tt
  else ret tt.

(** Two worlds that differ at most in the record of network calls. *)
Definition same_but_net_calls (w w' : world) : Prop :=
  caches w' = caches w /\ console w' = console w /\
  skip_waiting w' = skip_waiting w /\ clients_claimed w' = clients_claimed w /\
  posted w' = posted w /\ pending w' = pending w.

(** The effect of one unawaited cache write on the partitions. *)
Definition apply_task (cs : list (string * cache)) (t : task)
  : list (string * cache) :=
  match t with
  | OpenAndPut name u r => CacheStorage.put name u r (CacheStorage.open name cs)
  end.

(** Every partition not called [name] has no entry for [u]. *)
Definition lacks_outside (name u : string) (cs : list (string * cache)) : Prop :=
  Forall (fun nc => fst nc <> name -> snd nc !! u = None) cs.

(** Every partition called [name] maps [u] to [r], and no other partition
    has an entry for [u]. *)
Definition settled (name u : string) (r : response) (cs : list (string * cache))
  : Prop :=
  Forall (fun nc => if String.eqb (fst nc) name
                    then snd nc !! u = Some r
                    else snd nc !! u = None) cs.

(** ** The other handlers of the worker *)

(** [self.addEventListener('sync', ...)]: the argument of [waitUntil] is
    the value of the [console.log] call, so the line is logged when the
    handler runs and [waitUntil] receives [undefined]. *)
Definition on_sync (tag : string) : promise unit :=
  console_log ["Service Worker: Background sync triggered"] >>
  if String.eqb tag "background-sync"
  then waitUntil (console_log ["Service Worker: Background sync completed"])
  else ret tt.

(** [self.addEventListener('error', ...)] *)
Definition on_error (e : error) : promise unit :=
  console_error "Service Worker: Error occurred" e.

(** [self.addEventListener('unhandledrejection', ...)] *)
Definition on_unhandledrejection (reason : error) : promise unit :=
  console_error "Service Worker: Unhandled promise rejection" reason.

(** *** Notifications *)

Record notification_action : Type := NotificationAction {
  action : string;
  action_title : string;
  action_icon : string
}.

Record notification : Type := Notification {
  n_title : string;
  n_body : string;
  n_icon : string;
  n_badge : string;
  n_vibrate : list Z;
  n_dateOfArrival : Z;
  n_primaryKey : string;
  n_actions : list notification_action
}.

(** The worker's world together with what it did to the user interface:
    the notifications it showed, the notifications it closed and the windows
    it opened, each oldest first. *)
Record desktop : Type := Desktop {
  worker : world;
  permission_granted : bool;   (* Notification.permission === "granted" *)
  shown : list notification;
  closed : list notification;
  opened : list string
}.

Definition ui_promise (A : Type) : Type := desktop -> outcome A * desktop.

Definition ui_then {A B} (p : ui_promise A) (f : A -> ui_promise B) : ui_promise B :=
  fun d =>
    match p d with
    | (Fulfilled a, d') => f a d'
    | (Rejected e, d') => (Rejected e, d')
    end.

(** A promise of the worker's world run inside the desktop. *)
Definition ui_lift {A} (p : promise A) : ui_promise A :=
  fun d =>
    let (o, w') := p (worker d) in
    (o, Desktop w' (permission_granted d) (shown d) (closed d) (opened d)).

(** [self.registration.showNotification(title, options)] rejects with a
    TypeError when the user has not granted the permission. *)
Definition showNotification (n : notification) : ui_promise unit :=
  fun d =>
    if permission_granted d
    then (Fulfilled tt,
          Desktop (worker d) (permission_granted d) (shown d ++ [n]) (closed d)
                  (opened d))
    else (Rejected (TypeError "No notification permission has been granted"), d).

(** [notification.close()] *)
Definition notification_close (n : notification) : ui_promise unit :=
  fun d => (Fulfilled tt,
            Desktop (worker d) (permission_granted d) (shown d) (closed d ++ [n])
                    (opened d)).

(** [clients.openWindow(u)] *)
Definition clients_openWindow (u : string) : ui_promise unit :=
  fun d => (Fulfilled tt,
            Desktop (worker d) (permission_granted d) (shown d) (closed d)
                    (opened d ++ [u])).

(** The options of the notification a push shows: [data] is the text of
    the push payload ([None] when the push has none), [now] is [Date.now()]. *)
Definition push_notification (data : option string) (now : Z) : notification :=
  Notification
    "Bastelglück by Reni"
    (match data with Some text => text | None => "Neue Inhalte verfügbar!" end)
    "/icons/icon-192.png"
    "/icons/badge-72.png"
    [100; 50; 100]
    now
    "1"
    [ NotificationAction "explore" "Entdecken" "/icons/checkmark.png";
      NotificationAction "close" "Schließen" "/icons/xmark.png" ].

(** [self.addEventListener('push', ...)] *)
Definition on_push (data : option string) (now : Z) : ui_promise unit :=
  ui_then (ui_lift (console_log ["Service Worker: Push message received"]))
    (fun _ => showNotification (push_notification data now)).

(** [self.addEventListener('notificationclick', ...)]: [act] is
    [event.action], the empty string for a click outside the action
    buttons. *)
Definition on_notificationclick (n : notification) (act : string) : ui_promise unit :=
  ui_then (ui_lift (console_log ["Service Worker: Notification click received"]))
    (fun _ =>
  ui_then (notification_close n)
    (fun _ =>
  if String.eqb act "explore" then clients_openWindow "/"
  else if String.eqb act "close" then (fun d => (Fulfilled tt, d))
  else clients_openWindow "/")).

(** Two worlds that differ at most in the console. *)
Definition same_but_console (w w' : world) : Prop :=
  caches w' = caches w /\ net_calls w' = net_calls w /\
  skip_waiting w' = skip_waiting w /\ clients_claimed w' = clients_claimed w /\
  posted w' = posted w /\ pending w' = pending w.

(** * The Etsy product manager (class [EtsyProductManager])

    A JavaScript string is a sequence of code units; [substring] and
    [length] below count the elements of that sequence. *)

Module Etsy.

(** A product as the page shows it. *)
Record product : Type := Product {
  p_id : string;
  p_title : string;
  p_description : string;
  p_price : string;
  p_image : string;
  p_category : string;
  p_tags : list string;
  p_etsyUrl : string;
  p_inStock : bool
}.

(** An element of [product.images]; [None] is a missing [url_fullxfull]. *)
Record listing_image : Type := ListingImage { url_fullxfull : option string }.

(** An element of [data.results], with the fields the code reads.
    [l_price] is the text [product.price] converts to in a template. *)
Record listing : Type := Listing {
  l_listing_id : N;
  l_title : string;
  l_description : string;
  l_price : string;
  l_images : list listing_image;
  l_tags : list string;
  l_url : string;
  l_quantity : Z
}.

(** [CONFIG.etsy] *)
Record etsy_config : Type := EtsyConfig {
  cfg_apiKey : option string;
  cfg_shopId : option string
}.

(** The global [CONFIG]: [None] when [typeof CONFIG === 'undefined'],
    [Some None] when it has no [etsy] member. *)
Definition global_config := option (option etsy_config).

Record manager : Type := Manager {
  apiKey : option string;     (* [None] is [null] *)
  shopId : string;
  fallbackProducts : list product
}.

(** Truthiness of a value that is a string or [undefined]/[null]. *)
Definition truthy_string (v : option string) : bool :=
  match v with
  | Some s => negb (String.eqb s EmptyString)
  | None => false
  end.

(** [typeof CONFIG !== 'undefined' && CONFIG.etsy?.apiKey] *)
Definition configured_apiKey (CONFIG : global_config) : option string :=
  match CONFIG with
  | Some (Some c) => cfg_apiKey c
  | _ => None
  end.

Definition configured_shopId (CONFIG : global_config) : option string :=
  match CONFIG with
  | Some (Some c) => cfg_shopId c
  | _ => None
  end.

(** [getFallbackProducts()] *)
Definition getFallbackProducts : list product :=
  [ Product "etsy-1"
      "Frühlings-Deko Vorlagen Set"
      "Wunderschöne digitale Vorlagen für Frühlingsdekorationen"
      "€8,99"
      "files/produkt1.jpg"
      "templates"
      ["Frühling"; "Digital"; "Deko"]
      "https://bastelglueckbyreni.etsy.com/listing/YOUR_LISTING_ID"
      true;
    Product "etsy-2"
      "DIY Vintage Bilderrahmen Anleitung"
      "Schritt-für-Schritt Anleitung für selbstgemachte Vintage-Rahmen"
      "€12,50"
      "files/produkt2.jpg"
      "diy"
      ["Vintage"; "DIY"; "Anleitung"]
      "https://bastelglueckbyreni.etsy.com/listing/YOUR_LISTING_ID_2"
      true ].

(** [constructor()] *)
Definition new_manager (CONFIG : global_config) : manager :=
  Manager
    (if truthy_string (configured_apiKey CONFIG)
     then configured_apiKey CONFIG else None)
    (if truthy_string (configured_shopId CONFIG)
     then match configured_shopId CONFIG with
          | Some s => s
          | None => "BastelglueckbyReni"
          end
     else "BastelglueckbyReni")
    getFallbackProducts.

(** [tags.some(tag => tag.includes(a) || tag.includes(b))] *)
Definition some_tag_includes (tags : list string) (a b : string) : bool :=
  existsb (fun tag => includes tag a || includes tag b) tags.

(** [categorizeProduct(tags)] *)
Definition categorizeProduct (tags : list string) : string :=
  if some_tag_includes tags "digital" "template" then "templates"
  else if some_tag_includes tags "diy" "anleitung" then "diy"
  else if some_tag_includes tags "weihnacht" "ostern" then "seasonal"
  else "diy".

(** [product.images[0]?.url_fullxfull || 'files/placeholder.jpg'] *)
Definition first_image_or_placeholder (images : list listing_image) : string :=
  match images with
  | [] => "files/placeholder.jpg"
  | img :: _ =>
      match url_fullxfull img with
      | Some u => if String.eqb u EmptyString then "files/placeholder.jpg" else u
      | None => "files/placeholder.jpg"
      end
  end.

(** The callback of [formatEtsyProducts]. *)
Definition formatEtsyProduct (item : listing) : product :=
  Product
    ("etsy-" ++ pretty (l_listing_id item))
    (l_title item)
    (String.substring 0 150 (l_description item) ++ "...")
    ("€" ++ l_price item)
    (first_image_or_placeholder (l_images item))
    (categorizeProduct (l_tags item))
    (firstn 3 (l_tags item))
    (l_url item)
    (0 <? l_quantity item).

(** [formatEtsyProducts(etsyProducts)] *)
Definition formatEtsyProducts (etsyProducts : list listing) : list product :=
  map formatEtsyProduct etsyProducts.

(** The request [loadEtsyProducts] sends. *)
Record api_request : Type := ApiRequest {
  api_url : string;
  api_authorization : string;
  api_content_type : string
}.

(** What [response.json()] gives: it rejects ([Unparsable]), or it
    fulfils with a value whose [results] member is an array or is not
    there to map over ([Parsed None]). *)
Inductive json_result : Type :=
  | Unparsable
  | Parsed (results : option (list listing)).

Record api_response : Type := ApiResponse {
  api_ok : bool;
  api_json : json_result
}.

(** What ends up in the [catch] of [loadEtsyProducts]. *)
Inductive failure : Type :=
  | FetchFailed (reason : string)
  | ApiUnavailable                   (* new Error('Etsy API nicht verfügbar') *)
  | JsonSyntaxError
  | ResultsNotIterable.

Inductive log_line : Type :=
  | NoKeyConfigured
  | FallingBack (e : failure).

(** One run of [loadEtsyProducts]: the products it resolves with, the
    requests it sent and the lines it logged. *)
Record load_run : Type := LoadRun {
  products : list product;
  requests : list api_request;
  logged : list log_line
}.

Definition listings_request (m : manager) (key : string) : api_request :=
  ApiRequest
    ("https://openapi.etsy.com/v3/shops/" ++ shopId m ++ "/listings/active")
    ("Bearer " ++ key)
    "application/json".

(** [loadEtsyProducts()] *)
Definition loadEtsyProducts (m : manager)
    (net : api_request -> failure + api_response) : load_run :=
  match apiKey m with
  | None => LoadRun (fallbackProducts m) [] [NoKeyConfigured]
  | Some key =>
      if String.eqb key EmptyString || String.eqb key "IHR_API_KEY_HIER"
      then LoadRun (fallbackProducts m) [] [NoKeyConfigured]
      else
        let rq := listings_request m key in
        let caught e := LoadRun (fallbackProducts m) [rq] [FallingBack e] in
        match net rq with
        | inl e => caught e
        | inr response =>
            if api_ok response
            then match api_json response with
                 | Unparsable => caught JsonSyntaxError
                 | Parsed None => caught ResultsNotIterable
                 | Parsed (Some results) =>
                     LoadRun (formatEtsyProducts results) [rq] []
                 end
            else caught ApiUnavailable
        end
  end.

(** The configuration of the example file [config.example.js]. *)
Definition example_config : global_config :=
  Some (Some (EtsyConfig (Some "IHR_API_KEY_HIER") (Some "BastelglueckbyReni"))).

End Etsy.

(** * Bookmarks ([PortfolioManager.bookmarkProject]) *)

Module Bookmarks.

(** What [localStorage.getItem('diy-bookmarks')] gives: [null], the empty
    text, the JSON text of an array of project ids, or a text that
    [JSON.parse] rejects. *)
Inductive stored : Type :=
  | Absent
  | EmptyText
  | JsonArray (ids : list Z)
  | Malformed.

(** [JSON.parse(item || '[]')]; [None] when it throws. *)
Definition parse (item : stored) : option (list Z) :=
  match item with
  | Absent | EmptyText => Some []
  | JsonArray ids => Some ids
  | Malformed => None
  end.

(** [bookmarks.includes(id)] *)
Definition array_includes (bookmarks : list Z) (id : Z) : bool :=
  existsb (Z.eqb id) bookmarks.

(** [bookmarkProject(project)]: the stored item afterwards and whether the
    "saved" notification was shown; [None] when the method throws. *)
Definition bookmarkProject (project_id : Z) (item : stored) : option (stored * bool) :=
  match parse item with
  | None => None
  | Some bookmarks =>
      if negb (array_includes bookmarks project_id)
      then Some (JsonArray (bookmarks ++ [project_id]), true)
      else Some (item, false)
  end.

End Bookmarks.

(** * Difficulty stars ([createPortfolioItem], [createProjectModal]) *)

Module Stars.

(** The two characters of the rating, one code unit each. *)
Inductive star : Type :=
  | Filled    (* the black star *)
  | Hollow.   (* the white star *)

(** [String.prototype.repeat] on a one-character string and an integer
    count: a negative count throws a RangeError ([None]). *)
Definition repeat (c : star) (count : Z) : option (list star) :=
  if count <? 0 then None else Some (List.repeat c (Z.to_nat count)).

(** [filled.repeat(level) + hollow.repeat(3 - level)] *)
Definition difficultyStars (level : Z) : option (list star) :=
  match repeat Filled level with
  | None => None
  | Some filled =>
      match repeat Hollow (3 - level) with
      | None => None
      | Some hollow => Some (filled ++ hollow)%list
      end
  end.

End Stars.

(** ** Sample requests and worlds *)

(** The world after a successful installation on a fresh browser. *)
Definition installed_world : world := snd (on_install site_origin net_up empty_world).

Definition stylesheet_request : request :=
  Request "GET" (site_origin ++ "/css/styles.css") [("accept", "text/css,*/*;q=0.1")].

Definition gallery_request : request :=
  Request "GET" (site_origin ++ "/files/gallery.html") [("accept", "text/html")].

(** A same-origin GET request that carries no accept header. *)
Definition bare_request : request :=
  Request "GET" (site_origin ++ "/api/data.json") [].

(** A GET request to another site whose host name begins with the text of
    the worker's host name. *)
Definition lookalike_request : request :=
  Request "GET" "https://netzscout.github.io.evil.example/a.png"
          [("accept", "image/avif,image/webp,*/*")].

Definition no_content : response := Response 204 Basic false [] EmptyString.

Definition version_event : message_event :=
  MessageEvent (Some (MessageData "GET_VERSION")) [7%nat].

Definition update_event : message_event :=
  MessageEvent (Some (MessageData "CACHE_UPDATE")) [].

(** A same-origin image request for a URL that is in no cache. *)
Definition photo_request : request :=
  Request "GET" (site_origin ++ "/files/photo.jpg")
          [("accept", "image/avif,image/webp,*/*")].

Definition skip_event : message_event :=
  MessageEvent (Some (MessageData "SKIP_WAITING")) [].

Definition ping_event : message_event :=
  MessageEvent (Some (MessageData "PING")) [3%nat].

Definition portless_version_event : message_event :=
  MessageEvent (Some (MessageData "GET_VERSION")) [].

(** * Properties *)

(** Closed facts are checked by evaluation, conjunct by conjunct. *)
Ltac by_evaluation :=
  repeat match goal with |- _ /\ _ => split end;
  try (vm_compute; reflexivity).

(** ** Request interception *)

Section FetchHandler.

Variable origin : string.
Variable net : request -> outcome response.

Arguments respond : simpl never.

Ltac run :=
  unfold respond, then_, catch_, ret, throw, caches_match, console_log,
    console_error, fetch, spawn, accept_includes, waitUntil; cbn.

(** The handler leaves requests other than GET alone. *)
Lemma non_get_passes_through (rq : request) (w : world) :
  method rq <> "GET" -> on_fetch origin net rq w = (PassThrough, w).
Proof.
  intros Hm. unfold on_fetch.
  destruct (String.eqb_spec (method rq) "GET") as [E | _]; [contradiction | reflexivity].
Qed.

(** The handler leaves alone every request whose URL does not begin with
    the text of the worker's origin. *)
Lemma unprefixed_passes_through (rq : request) (w : world) :
  startsWith (url rq) origin = false -> on_fetch origin net rq w = (PassThrough, w).
Proof.
  intros Hp. unfold on_fetch. rewrite Hp.
  destruct (negb (method rq =? "GET")%string); reflexivity.
Qed.

(** A request is intercepted exactly when it is a GET whose URL begins with
    the text of the worker's origin. *)
Lemma intercepted_iff (rq : request) (w : world) :
  fst (on_fetch origin net rq w) <> PassThrough <->
  method rq = "GET" /\ startsWith (url rq) origin = true.
Proof.
  unfold on_fetch.
  destruct (String.eqb_spec (method rq) "GET") as [E | NE]; cbn.
  - destruct (startsWith (url rq) origin) eqn:Hp; cbn.
    + destruct (respond origin net rq w). cbn. split; [auto | intros _ ?; discriminate].
    + split; [congruence | intros [_ ?]; discriminate].
  - split; [congruence | intros [? _]; contradiction].
Qed.

Lemma on_fetch_intercepted (rq : request) (w : world) :
  method rq = "GET" -> startsWith (url rq) origin = true ->
  on_fetch origin net rq w =
  (RespondWith (fst (respond origin net rq w)), snd (respond origin net rq w)).
Proof.
  intros Hm Hp. unfold on_fetch. rewrite Hm, Hp. cbn.
  destruct (respond origin net rq w); reflexivity.
Qed.

(** What the handler does on a hit. *)
Lemma hit_is_served (rq : request) (w : world) (r : response) :
  method rq = "GET" ->
  startsWith (url rq) origin = true ->
  CacheStorage.match_ (url rq) (caches w) = Some r ->
  on_fetch origin net rq w =
  (RespondWith (Fulfilled (Some r)),
   add_console (ConsoleLog ["Service Worker: Cache hit for"; url rq]) w).
Proof.
  intros Hm Hp Hhit. rewrite (on_fetch_intercepted rq w Hm Hp).
  run. rewrite Hhit. reflexivity.
Qed.

(** C6: an intercepted GET request with a matching entry in the combined
    cache store is answered with the stored response, verbatim, and the
    network is not used: no fetch is recorded, no partition changes and no
    cache write is started. *)
Theorem cache_hit_served_without_network (rq : request) (w : world) (r : response) :
  method rq = "GET" ->
  startsWith (url rq) origin = true ->
  CacheStorage.match_ (url rq) (caches w) = Some r ->
  fst (on_fetch origin net rq w) = RespondWith (Fulfilled (Some r)) /\
  net_calls (snd (on_fetch origin net rq w)) = net_calls w /\
  caches (snd (on_fetch origin net rq w)) = caches w /\
  pending (snd (on_fetch origin net rq w)) = pending w.
Proof.
  intros Hm Hp Hhit. rewrite (hit_is_served rq w r Hm Hp Hhit). cbn. auto.
Qed.

(** What the handler does on a miss when the network answers. *)
Lemma miss_network_success (rq : request) (w : world) (r : response) :
  method rq = "GET" ->
  startsWith (url rq) origin = true ->
  CacheStorage.match_ (url rq) (caches w) = None ->
  net rq = Fulfilled r ->
  fst (on_fetch origin net rq w) = RespondWith (Fulfilled (Some r)) /\
  caches (snd (on_fetch origin net rq w)) = caches w /\
  net_calls (snd (on_fetch origin net rq w)) = (net_calls w ++ [url rq])%list /\
  pending (snd (on_fetch origin net rq w)) =
    (pending w ++
     if cacheable r then [OpenAndPut DYNAMIC_CACHE (url rq) r] else [])%list.
Proof.
  intros Hm Hp Hmiss Hnet. rewrite (on_fetch_intercepted rq w Hm Hp).
  run. rewrite Hmiss. cbn. rewrite Hnet. unfold cacheable.
  destruct (status r =? 200); cbn.
  - destruct (response_type_eqb (type r) Basic); cbn;
      rewrite ?app_nil_r; auto.
  - rewrite app_nil_r; auto.
Qed.

(** What the handler does on a miss when the network fails: the offline
    fallback, decided by the accept header. *)
Lemma miss_network_failure (rq : request) (w : world) (e : error) :
  method rq = "GET" ->
  startsWith (url rq) origin = true ->
  CacheStorage.match_ (url rq) (caches w) = None ->
  net rq = Rejected e ->
  fst (on_fetch origin net rq w) =
    RespondWith
      match headers_get (req_headers rq) "accept" with
      | None => Rejected (TypeError "Cannot read properties of null")
      | Some accept =>
          if includes accept "text/html"
          then Fulfilled (CacheStorage.match_ (resolve origin "/index.html") (caches w))
          else if includes accept "image"
               then Fulfilled (Some placeholder_image)
               else Rejected e
      end /\
  caches (snd (on_fetch origin net rq w)) = caches w /\
  pending (snd (on_fetch origin net rq w)) = pending w.
Proof.
  intros Hm Hp Hmiss Hnet. rewrite (on_fetch_intercepted rq w Hm Hp).
  run. rewrite Hmiss. cbn. rewrite Hnet. cbn.
  destruct (headers_get (req_headers rq) "accept") as [accept | ]; cbn; [ | auto].
  destruct (includes accept "text/html"); cbn; [auto | ].
  destruct (includes accept "image"); cbn; auto.
Qed.

End FetchHandler.

(** ** Cache Storage lemmas *)

Section CacheStorageFacts.

Variables (name u : string) (r : response).

Lemma match_none_lacks (cs : list (string * cache)) :
  CacheStorage.match_ u cs = None -> Forall (fun nc => snd nc !! u = None) cs.
Proof.
  induction cs as [ | [n c] cs IH]; cbn; intros H; constructor.
  - cbn. destruct (c !! u); [discriminate | reflexivity].
  - apply IH. destruct (c !! u); [discriminate | assumption].
Qed.

Lemma match_none_lacks_outside (cs : list (string * cache)) :
  CacheStorage.match_ u cs = None -> lacks_outside name u cs.
Proof.
  intros H. apply match_none_lacks in H.
  unfold lacks_outside. eapply Forall_impl; [exact H | cbn; auto].
Qed.

Lemma has_app (n : string) (cs cs' : list (string * cache)) :
  CacheStorage.has n (cs ++ cs') = CacheStorage.has n cs || CacheStorage.has n cs'.
Proof.
  unfold CacheStorage.has, CacheStorage.keys.
  rewrite List.map_app. apply existsb_app.
Qed.

Lemma has_open (cs : list (string * cache)) :
  CacheStorage.has name (CacheStorage.open name cs) = true.
Proof.
  unfold CacheStorage.open.
  destruct (CacheStorage.has name cs) eqn:H; [assumption | ].
  rewrite has_app. unfold CacheStorage.has at 2. cbn.
  rewrite String.eqb_refl. apply orb_true_iff. right. reflexivity.
Qed.

Lemma keys_put (n v : string) (x : response) (cs : list (string * cache)) :
  CacheStorage.keys (CacheStorage.put n v x cs) = CacheStorage.keys cs.
Proof.
  unfold CacheStorage.keys, CacheStorage.put.
  induction cs as [ | [m c] cs IH]; cbn; [reflexivity | ].
  f_equal; [ | exact IH]. destruct (String.eqb m n); reflexivity.
Qed.

Lemma has_put (n m v : string) (x : response) (cs : list (string * cache)) :
  CacheStorage.has n (CacheStorage.put m v x cs) = CacheStorage.has n cs.
Proof. unfold CacheStorage.has. rewrite keys_put. reflexivity. Qed.

Lemma lacks_outside_open (n : string) (cs : list (string * cache)) :
  lacks_outside name u cs -> lacks_outside name u (CacheStorage.open n cs).
Proof.
  intros H. unfold CacheStorage.open.
  destruct (CacheStorage.has n cs); [assumption | ].
  apply Forall_app. split; [assumption | ].
  constructor; [ | constructor]. cbn. intros _. apply lookup_empty.
Qed.

Lemma lacks_outside_put (v : string) (x : response) (cs : list (string * cache)) :
  lacks_outside name u cs -> lacks_outside name u (CacheStorage.put name v x cs).
Proof.
  unfold lacks_outside, CacheStorage.put.
  induction 1 as [ | [m c] cs Hm Hcs IH]; cbn; constructor; [ | exact IH].
  destruct (String.eqb_spec m name) as [-> | NE]; cbn in *.
  - intros NE. contradiction.
  - exact Hm.
Qed.

Lemma settled_put (cs : list (string * cache)) :
  lacks_outside name u cs -> settled name u r (CacheStorage.put name u r cs).
Proof.
  unfold lacks_outside, settled, CacheStorage.put.
  induction 1 as [ | [m c] cs Hm Hcs IH]; cbn; constructor; [ | exact IH].
  destruct (String.eqb_spec m name) as [-> | NE]; cbn in *.
  - rewrite String.eqb_refl. apply lookup_insert_eq.
  - destruct (String.eqb_spec m name); [contradiction | auto].
Qed.

Lemma settled_match (cs : list (string * cache)) :
  settled name u r cs -> CacheStorage.has name cs = true ->
  CacheStorage.match_ u cs = Some r.
Proof.
  unfold settled, CacheStorage.has, CacheStorage.keys.
  induction 1 as [ | [m c] cs Hm Hcs IH]; cbn; [discriminate | ].
  cbn in Hm. rewrite String.eqb_sym.
  destruct (String.eqb m name); cbn; rewrite Hm; [reflexivity | exact IH].
Qed.

Lemma settled_lookup (cs : list (string * cache)) :
  settled name u r cs -> CacheStorage.has name cs = true ->
  exists c, CacheStorage.lookup name cs = Some c /\ c !! u = Some r.
Proof.
  unfold settled, CacheStorage.has, CacheStorage.keys.
  induction 1 as [ | [m c] cs Hm Hcs IH]; cbn; [discriminate | ].
  cbn in Hm. rewrite String.eqb_sym.
  destruct (String.eqb m name); cbn; [eauto | exact IH].
Qed.

(** A write to the partition [name] keeps [u] out of the other partitions. *)
Lemma lacks_outside_apply_task (t : task) (cs : list (string * cache)) :
  task_cache t = name -> lacks_outside name u cs -> lacks_outside name u (apply_task cs t).
Proof.
  destruct t as [n v x]. cbn. intros -> H.
  apply lacks_outside_put, lacks_outside_open, H.
Qed.

Lemma lacks_outside_apply_tasks (ts : list task) (cs : list (string * cache)) :
  Forall (fun t => task_cache t = name) ts ->
  lacks_outside name u cs -> lacks_outside name u (fold_left apply_task ts cs).
Proof.
  intros Hts. revert cs.
  induction Hts as [ | t ts Ht Hts IH]; cbn; intros cs H; [assumption | ].
  apply IH, lacks_outside_apply_task; assumption.
Qed.

End CacheStorageFacts.

(** Running the queued writes is folding [apply_task] over the queue. *)
Lemma run_tasks_caches (ts : list task) (w : world) :
  caches (fold_left (fun w' t => snd (run_task t w')) ts w) =
  fold_left apply_task ts (caches w).
Proof.
  revert w. induction ts as [ | [n v x] ts IH]; intros w; cbn; [reflexivity | ].
  rewrite IH. reflexivity.
Qed.

Lemma run_pending_caches (w : world) :
  caches (run_pending w) = fold_left apply_task (pending w) (caches w).
Proof. unfold run_pending. rewrite run_tasks_caches. reflexivity. Qed.

(** After the queued writes, the last of which stores [r] for [u] in the
    partition [name], a lookup of [u] finds [r], in that partition. *)
Lemma written_entry_is_matched (name u : string) (r : response)
    (ts : list task) (cs : list (string * cache)) :
  CacheStorage.match_ u cs = None ->
  Forall (fun t => task_cache t = name) ts ->
  let cs' := fold_left apply_task (ts ++ [OpenAndPut name u r]) cs in
  CacheStorage.match_ u cs' = Some r /\
  exists c, CacheStorage.lookup name cs' = Some c /\ c !! u = Some r.
Proof.
  intros Hmiss Hts cs'. subst cs'. rewrite fold_left_app. cbn.
  set (cs1 := fold_left apply_task ts cs).
  assert (H1 : lacks_outside name u cs1).
  { apply lacks_outside_apply_tasks; [assumption | ].
    apply match_none_lacks_outside, Hmiss. }
  assert (Hs : settled name u r
                 (CacheStorage.put name u r (CacheStorage.open name cs1))).
  { apply settled_put, lacks_outside_open, H1. }
  assert (Hh : CacheStorage.has name
                 (CacheStorage.put name u r (CacheStorage.open name cs1)) = true).
  { rewrite has_put. apply has_open. }
  split; [apply (settled_match name); assumption
         | apply settled_lookup; assumption].
Qed.



Lemma match_none_lookup (u name : string) (cs : list (string * cache)) (c : cache) :
  CacheStorage.match_ u cs = None ->
  CacheStorage.lookup name cs = Some c -> c !! u = None.
Proof.
  induction cs as [ | [n c0] cs IH]; cbn; [discriminate | ].
  destruct (c0 !! u) eqn:E; [discriminate | ]. intros Hmiss.
  destruct (String.eqb n name); [intros [= <-]; exact E | auto].
Qed.

Lemma miss_no_dynamic_entry (u : string) (w : world) :
  CacheStorage.match_ u (caches w) = None -> dynamic_entry u w = None.
Proof.
  intros Hmiss. unfold dynamic_entry.
  destruct (CacheStorage.lookup DYNAMIC_CACHE (caches w)) as [c | ] eqn:E;
    [ | reflexivity].
  eapply match_none_lookup; eassumption.
Qed.

Lemma cacheable_spec (r : response) :
  cacheable r = true <-> status r = 200 /\ type r = Basic.
Proof.
  unfold cacheable, response_type_eqb.
  rewrite andb_true_iff, Z.eqb_eq, bool_decide_eq_true. reflexivity.
Qed.

(** ** Request interception: misses *)

(** C2, as the script has it: on a miss answered by the network, the
    response goes back to the page unmodified and nothing is written by
    the handler itself; a write to the dynamic cache is started exactly when
    the status is 200 (not any other 2xx status) and the type is basic, and
    once the started work has run, the dynamic cache holds the response for
    the request's URL exactly in that case. *)
Theorem miss_cached_iff_status_200_basic
    (origin : string) (net : request -> outcome response)
    (rq : request) (w : world) (r : response) :
  method rq = "GET" ->
  startsWith (url rq) origin = true ->
  CacheStorage.match_ (url rq) (caches w) = None ->
  net rq = Fulfilled r ->
  fst (on_fetch origin net rq w) = RespondWith (Fulfilled (Some r)) /\
  caches (snd (on_fetch origin net rq w)) = caches w /\
  pending (snd (on_fetch origin net rq w)) =
    (pending w ++
     if cacheable r then [OpenAndPut DYNAMIC_CACHE (url rq) r] else [])%list /\
  (pending w = [] ->
   (dynamic_entry (url rq) (run_pending (snd (on_fetch origin net rq w))) = Some r
    <-> status r = 200 /\ type r = Basic)).
Proof.
  intros Hm Hp Hmiss Hnet.
  destruct (miss_network_success origin net rq w r Hm Hp Hmiss Hnet)
    as (Hres & Hcs & _ & Hpend).
  split; [exact Hres | ]. split; [exact Hcs | ]. split; [exact Hpend | ].
  intros H. split.
  - intros Hentry. apply cacheable_spec.
    destruct (cacheable r) eqn:Hc; [reflexivity | exfalso].
    rewrite H, app_nil_r in Hpend.
    assert (Hnone : dynamic_entry (url rq)
                      (run_pending (snd (on_fetch origin net rq w))) = None).
    { unfold dynamic_entry. rewrite run_pending_caches, Hpend, Hcs. cbn.
      apply (miss_no_dynamic_entry (url rq) w Hmiss). }
    congruence.
  - intros Hc. apply cacheable_spec in Hc. rewrite Hc, H in Hpend. cbn in Hpend.
    unfold dynamic_entry. rewrite run_pending_caches, Hpend, Hcs.
    destruct (written_entry_is_matched DYNAMIC_CACHE (url rq) r [] (caches w)
                Hmiss (List.Forall_nil _)) as (_ & c & Hc1 & Hc2).
    cbn in Hc1. cbn. rewrite Hc1. exact Hc2.
Qed.


(** The handler ignores the [redirected] flag: the response of a followed
    same-origin redirect is stored like any other. *)
Lemma followed_redirect_is_cacheable (h : headers) (b : string) :
  cacheable (Response 200 Basic true h b) = true.
Proof. reflexivity. Qed.

(** The only work the fetch handler ever leaves behind is a write to the
    dynamic cache, so a queue of such writes stays one. *)
Lemma on_fetch_pending_dynamic
    (origin : string) (net : request -> outcome response)
    (rq : request) (w : world) :
  Forall (fun t => task_cache t = DYNAMIC_CACHE) (pending w) ->
  Forall (fun t => task_cache t = DYNAMIC_CACHE)
         (pending (snd (on_fetch origin net rq w))).
Proof.
  intros Hq.
  destruct (String.eqb_spec (method rq) "GET") as [Hm | Hm];
    [ | rewrite (non_get_passes_through origin net rq w Hm); exact Hq].
  destruct (startsWith (url rq) origin) eqn:Hp;
    [ | rewrite (unprefixed_passes_through origin net rq w Hp); exact Hq].
  destruct (CacheStorage.match_ (url rq) (caches w)) as [r | ] eqn:Hc.
  - rewrite (hit_is_served origin net rq w r Hm Hp Hc). exact Hq.
  - destruct (net rq) as [r | e] eqn:Hn.
    + destruct (miss_network_success origin net rq w r Hm Hp Hc Hn)
        as (_ & _ & _ & ->).
      apply Forall_app. split; [exact Hq | ].
      destruct (cacheable r); repeat constructor.
    + destruct (miss_network_failure origin net rq w e Hm Hp Hc Hn)
        as (_ & _ & ->). exact Hq.
Qed.

(** C10: for an intercepted GET request with no accept header that misses
    the cache and fails on the network, the header lookup gives [null] and
    the handler's promise rejects with the TypeError of the call on [null]:
    it fulfils with no fallback response and does not reject with the
    network's error.  The network failure itself has been logged, and no
    cache is touched. *)
Theorem fallback_without_accept_header_throws
    (origin : string) (net : request -> outcome response)
    (rq : request) (w : world) (e : error) :
  method rq = "GET" ->
  startsWith (url rq) origin = true ->
  CacheStorage.match_ (url rq) (caches w) = None ->
  net rq = Rejected e ->
  headers_get (req_headers rq) "accept" = None ->
  fst (on_fetch origin net rq w)
    = RespondWith (Rejected (TypeError "Cannot read properties of null")) /\
  (forall v, fst (on_fetch origin net rq w) <> RespondWith (Fulfilled v)) /\
  (e <> TypeError "Cannot read properties of null" ->
   fst (on_fetch origin net rq w) <> RespondWith (Rejected e)) /\
  In (ConsoleError "Service Worker: Fetch failed" e)
     (console (snd (on_fetch origin net rq w))) /\
  caches (snd (on_fetch origin net rq w)) = caches w.
Proof.
  intros Hm Hp Hmiss Hnet Hacc.
  destruct (miss_network_failure origin net rq w e Hm Hp Hmiss Hnet)
    as (Hres & Hcs & _).
  rewrite Hacc in Hres. rewrite Hres.
  split; [reflexivity | ]. split; [intros v; discriminate | ].
  split; [intros Hne [= Heq]; auto | ]. split; [ | exact Hcs].
  rewrite (on_fetch_intercepted origin net rq w Hm Hp).
  unfold respond, then_, catch_, caches_match, console_log, console_error,
    fetch, accept_includes, throw; cbn.
  rewrite Hmiss. cbn. rewrite Hnet. cbn. rewrite Hacc. cbn.
  apply in_or_app. right. left. reflexivity.
Qed.

(** The offline fallback for requests that do carry an accept header: the
    cached home document (whatever the cache lookup of it gives) for HTML,
    the placeholder image for images, the network's error otherwise. *)
Lemma fallback_with_accept_header
    (origin : string) (net : request -> outcome response)
    (rq : request) (w : world) (e : error) (accept : string) :
  method rq = "GET" ->
  startsWith (url rq) origin = true ->
  CacheStorage.match_ (url rq) (caches w) = None ->
  net rq = Rejected e ->
  headers_get (req_headers rq) "accept" = Some accept ->
  fst (on_fetch origin net rq w) =
    RespondWith
      (if includes accept "text/html"
       then Fulfilled (CacheStorage.match_ (resolve origin "/index.html") (caches w))
       else if includes accept "image"
            then Fulfilled (Some placeholder_image)
            else Rejected e).
Proof.
  intros Hm Hp Hmiss Hnet Hacc.
  destruct (miss_network_failure origin net rq w e Hm Hp Hmiss Hnet)
    as (Hres & _).
  rewrite Hacc in Hres. exact Hres.
Qed.

(** The placeholder image is an SVG document. *)
Lemma placeholder_image_content_type :
  headers_get (resp_headers placeholder_image) "Content-Type" = Some "image/svg+xml"
  /\ ok placeholder_image = true.
Proof. split; reflexivity. Qed.


(** C5, at a cross-origin request: the URL of the request is on another
    origin than the worker's, but it begins with the text of the worker's
    origin, so the handler does not return early: it calls [respondWith]
    (here, offline, with the placeholder image). *)
Theorem lookalike_origin_is_intercepted :
  method lookalike_request = "GET" /\
  url_origin (url lookalike_request) = "https://netzscout.github.io.evil.example" /\
  url_origin (url lookalike_request) <> site_origin /\
  startsWith (url lookalike_request) site_origin = true /\
  fst (on_fetch site_origin net_down lookalike_request installed_world)
    = RespondWith (Fulfilled (Some placeholder_image)) /\
  fst (on_fetch site_origin net_down lookalike_request installed_world)
    <> PassThrough.
Proof.
  assert (H : fst (on_fetch site_origin net_down lookalike_request installed_world)
              = RespondWith (Fulfilled (Some placeholder_image)))
    by (vm_compute; reflexivity).
  assert (Ho : url_origin (url lookalike_request)
               = "https://netzscout.github.io.evil.example")
    by (vm_compute; reflexivity).
  by_evaluation.
  - rewrite Ho. vm_compute. discriminate.
  - rewrite H. discriminate.
Qed.

(** *** Concrete instances *)

Lemma cache_hit_served_without_network_witness :
  (method stylesheet_request = "GET" /\
   startsWith (url stylesheet_request) site_origin = true /\
   CacheStorage.match_ (url stylesheet_request) (caches installed_world)
     = Some (page ("content of " ++ url stylesheet_request))) /\
  (fst (on_fetch site_origin net_down stylesheet_request installed_world)
     = RespondWith (Fulfilled (Some (page ("content of " ++ url stylesheet_request)))) /\
   net_calls (snd (on_fetch site_origin net_down stylesheet_request installed_world))
     = net_calls installed_world /\
   caches (snd (on_fetch site_origin net_down stylesheet_request installed_world))
     = caches installed_world /\
   pending (snd (on_fetch site_origin net_down stylesheet_request installed_world))
     = pending installed_world).
Proof.
  split.
  - by_evaluation.
  - apply (cache_hit_served_without_network site_origin net_down
             stylesheet_request installed_world
             (page ("content of " ++ url stylesheet_request)));
      vm_compute; reflexivity.
Defined.

Lemma miss_cached_iff_status_200_basic_witness :
  (method gallery_request = "GET" /\
   startsWith (url gallery_request) site_origin = true /\
   CacheStorage.match_ (url gallery_request) (caches installed_world) = None /\
   net_up gallery_request = Fulfilled (page ("content of " ++ url gallery_request))) /\
  (fst (on_fetch site_origin net_up gallery_request installed_world)
     = RespondWith (Fulfilled (Some (page ("content of " ++ url gallery_request)))) /\
   caches (snd (on_fetch site_origin net_up gallery_request installed_world))
     = caches installed_world /\
   pending (snd (on_fetch site_origin net_up gallery_request installed_world)) =
     (pending installed_world ++
      if cacheable (page ("content of " ++ url gallery_request))
      then [OpenAndPut DYNAMIC_CACHE (url gallery_request)
              (page ("content of " ++ url gallery_request))]
      else [])%list /\
   (pending installed_world = [] ->
    (dynamic_entry (url gallery_request)
       (run_pending (snd (on_fetch site_origin net_up gallery_request installed_world)))
       = Some (page ("content of " ++ url gallery_request))
     <-> status (page ("content of " ++ url gallery_request)) = 200 /\
         type (page ("content of " ++ url gallery_request)) = Basic))).
Proof.
  split.
  - by_evaluation.
  - apply (miss_cached_iff_status_200_basic site_origin net_up
             gallery_request installed_world
             (page ("content of " ++ url gallery_request)));
      vm_compute; reflexivity.
Defined.

(** C2 as stated fails: a 204 response of type basic has a successful
    status and the basic type, is returned to the page, and is not written
    to the dynamic cache. *)
Lemma no_content_response_not_cached :
  method bare_request = "GET" /\
  startsWith (url bare_request) site_origin = true /\
  CacheStorage.match_ (url bare_request) (caches installed_world) = None /\
  net_no_content bare_request = Fulfilled no_content /\
  ok no_content = true /\
  type no_content = Basic /\
  fst (on_fetch site_origin net_no_content bare_request installed_world)
    = RespondWith (Fulfilled (Some no_content)) /\
  pending (snd (on_fetch site_origin net_no_content bare_request installed_world))
    = [] /\
  dynamic_entry (url bare_request)
    (run_pending (snd (on_fetch site_origin net_no_content bare_request installed_world)))
    = None /\
  ~ (dynamic_entry (url bare_request)
       (run_pending (snd (on_fetch site_origin net_no_content bare_request installed_world)))
       = Some no_content
     <-> ok no_content = true /\ type no_content = Basic).
Proof.
  assert (H : dynamic_entry (url bare_request)
                (run_pending (snd (on_fetch site_origin net_no_content
                                     bare_request installed_world))) = None)
    by (vm_compute; reflexivity).
  by_evaluation.
  rewrite H. intros [_ Hback]. discriminate Hback. split; reflexivity.
Qed.


Lemma fallback_without_accept_header_throws_witness :
  (method bare_request = "GET" /\
   startsWith (url bare_request) site_origin = true /\
   CacheStorage.match_ (url bare_request) (caches installed_world) = None /\
   net_down bare_request = Rejected (NetworkError "Failed to fetch") /\
   headers_get (req_headers bare_request) "accept" = None) /\
  fst (on_fetch site_origin net_down bare_request installed_world)
    = RespondWith (Rejected (TypeError "Cannot read properties of null")).
Proof.
  split.
  - by_evaluation.
  - refine (proj1 (fallback_without_accept_header_throws site_origin net_down
                     bare_request installed_world
                     (NetworkError "Failed to fetch") _ _ _ _ _));
      vm_compute; reflexivity.
Defined.

(** ** Populating a cache from a list of paths *)

Section Populate.

Variable origin : string.
Variable net : request -> outcome response.

Lemma fetch_all_frame (paths : list string) (w : world) :
  same_but_net_calls w (snd (fetch_all origin net paths w)).
Proof.
  revert w. induction paths as [ | path paths IH]; intros w.
  - cbn. unfold same_but_net_calls. tauto.
  - cbn. unfold then_, fetch.
    destruct (net (get_request (resolve origin path))) as [r | e]; cbn.
    + destruct (ok r && negb (status r =? 206)); cbn.
      * specialize (IH (add_net_call (resolve origin path) w)).
        destruct (fetch_all origin net paths (add_net_call (resolve origin path) w))
          as [[rs | e] w']; cbn in *; exact IH.
      * unfold same_but_net_calls. cbn. tauto.
    + unfold same_but_net_calls. cbn. tauto.
Qed.

Lemma paths_ok_cons (path : string) (paths : list string) :
  paths_ok origin net (path :: paths) =
  match net (get_request (resolve origin path)) with
  | Fulfilled r => ok r && negb (status r =? 206)
  | Rejected _ => false
  end && paths_ok origin net paths.
Proof. reflexivity. Qed.

Lemma fetch_all_outcome (paths : list string) (w : world) :
  if paths_ok origin net paths
  then fst (fetch_all origin net paths w) = Fulfilled (entries_of origin net paths)
  else exists e, fst (fetch_all origin net paths w) = Rejected e.
Proof.
  revert w. induction paths as [ | path paths IH]; intros w.
  - cbn. reflexivity.
  - rewrite paths_ok_cons. cbn [fetch_all entries_of]. unfold then_, fetch.
    cbn [url get_request].
    destruct (net (get_request (resolve origin path))) as [r | e]; cbn [andb].
    + destruct (ok r && negb (status r =? 206)); cbn [andb].
      * specialize (IH (add_net_call (resolve origin path) w)).
        destruct (fetch_all origin net paths (add_net_call (resolve origin path) w))
          as [[rs | e] w']; cbn [fst] in *.
        -- destruct (paths_ok origin net paths).
           ++ injection IH as ->. reflexivity.
           ++ destruct IH as [e He]. discriminate.
        -- destruct (paths_ok origin net paths); [discriminate | eauto].
      * cbn. eauto.
    + cbn. eauto.
Qed.

Lemma put_all_run (name : string) (entries : list (string * response)) (w : world) :
  put_all name entries w =
  (Fulfilled tt, set_caches (store_all name entries (caches w)) w).
Proof.
  revert w. induction entries as [ | [u r] entries IH]; intros w; cbn.
  - destruct w; reflexivity.
  - unfold then_, cache_put. rewrite IH. cbn. reflexivity.
Qed.

(** [cache.addAll] is all or nothing. *)
Lemma cache_addAll_run (name : string) (paths : list string) (w : world) :
  if paths_ok origin net paths
  then fst (cache_addAll origin net name paths w) = Fulfilled tt /\
       caches (snd (cache_addAll origin net name paths w))
         = store_all name (entries_of origin net paths) (caches w)
  else (exists e, fst (cache_addAll origin net name paths w) = Rejected e) /\
       caches (snd (cache_addAll origin net name paths w)) = caches w.
Proof.
  unfold cache_addAll, then_.
  pose proof (fetch_all_outcome paths w) as Ho.
  pose proof (fetch_all_frame paths w) as (Hcs & _).
  destruct (fetch_all origin net paths w) as [[entries | e] w'] eqn:E; cbn in *.
  - destruct (paths_ok origin net paths).
    + injection Ho as ->. rewrite put_all_run. cbn. rewrite Hcs. auto.
    + destruct Ho as [e He]. discriminate.
  - destruct (paths_ok origin net paths); [discriminate | ]. eauto.
Qed.

Lemma cache_addAll_frame (name : string) (paths : list string) (w : world) :
  console (snd (cache_addAll origin net name paths w)) = console w /\
  skip_waiting (snd (cache_addAll origin net name paths w)) = skip_waiting w /\
  clients_claimed (snd (cache_addAll origin net name paths w)) = clients_claimed w /\
  posted (snd (cache_addAll origin net name paths w)) = posted w /\
  pending (snd (cache_addAll origin net name paths w)) = pending w.
Proof.
  unfold cache_addAll, then_.
  pose proof (fetch_all_frame paths w) as (_ & H1 & H2 & H3 & H4 & H5).
  destruct (fetch_all origin net paths w) as [[entries | e] w']; cbn in *.
  - rewrite put_all_run. cbn. auto.
  - auto.
Qed.

End Populate.

(** ** Partitions by name *)

Section Partitions.

Variable name : string.

Lemma has_lookup (cs : list (string * cache)) :
  CacheStorage.has name cs =
  match CacheStorage.lookup name cs with Some _ => true | None => false end.
Proof.
  unfold CacheStorage.has, CacheStorage.keys.
  induction cs as [ | [n c] cs IH]; cbn; [reflexivity | ].
  rewrite String.eqb_sym. destruct (String.eqb n name); cbn; [reflexivity | exact IH].
Qed.

Lemma lookup_app (cs cs' : list (string * cache)) :
  CacheStorage.lookup name (cs ++ cs') =
  match CacheStorage.lookup name cs with
  | Some c => Some c
  | None => CacheStorage.lookup name cs'
  end.
Proof.
  induction cs as [ | [n c] cs IH]; cbn; [reflexivity | ].
  destruct (String.eqb n name); [reflexivity | exact IH].
Qed.

Lemma lookup_open_eq (cs : list (string * cache)) :
  CacheStorage.lookup name (CacheStorage.open name cs) =
  match CacheStorage.lookup name cs with Some c => Some c | None => Some ∅ end.
Proof.
  unfold CacheStorage.open. rewrite has_lookup.
  destruct (CacheStorage.lookup name cs) as [c | ] eqn:E; [exact E | ].
  rewrite lookup_app, E. cbn. rewrite String.eqb_refl. reflexivity.
Qed.

Lemma lookup_open_ne (n : string) (cs : list (string * cache)) :
  n <> name ->
  CacheStorage.lookup name (CacheStorage.open n cs) = CacheStorage.lookup name cs.
Proof.
  intros NE. unfold CacheStorage.open.
  destruct (CacheStorage.has n cs); [reflexivity | ].
  rewrite lookup_app. cbn.
  destruct (String.eqb_spec n name); [contradiction | ].
  destruct (CacheStorage.lookup name cs); reflexivity.
Qed.

Lemma lookup_delete_eq (cs : list (string * cache)) :
  CacheStorage.lookup name (CacheStorage.delete name cs) = None.
Proof.
  unfold CacheStorage.delete.
  induction cs as [ | [n c] cs IH]; cbn; [reflexivity | ].
  destruct (String.eqb n name) eqn:E; cbn; [exact IH | ].
  rewrite E. exact IH.
Qed.

Lemma lookup_delete_ne (n : string) (cs : list (string * cache)) :
  n <> name ->
  CacheStorage.lookup name (CacheStorage.delete n cs) = CacheStorage.lookup name cs.
Proof.
  intros NE. unfold CacheStorage.delete.
  induction cs as [ | [m c] cs IH]; cbn; [reflexivity | ].
  destruct (String.eqb_spec m n) as [-> | NE']; cbn.
  - destruct (String.eqb_spec n name); [contradiction | exact IH].
  - destruct (String.eqb m name); [reflexivity | exact IH].
Qed.

Lemma lookup_put_eq (u : string) (r : response) (cs : list (string * cache)) :
  CacheStorage.lookup name (CacheStorage.put name u r cs) =
  match CacheStorage.lookup name cs with
  | Some c => Some (<[u := r]> c)
  | None => None
  end.
Proof.
  unfold CacheStorage.put.
  induction cs as [ | [n c] cs IH]; cbn; [reflexivity | ].
  destruct (String.eqb n name) eqn:E; cbn; rewrite E; [reflexivity | exact IH].
Qed.

Lemma lookup_put_ne (n u : string) (r : response) (cs : list (string * cache)) :
  n <> name ->
  CacheStorage.lookup name (CacheStorage.put n u r cs) = CacheStorage.lookup name cs.
Proof.
  intros NE. unfold CacheStorage.put.
  induction cs as [ | [m c] cs IH]; cbn; [reflexivity | ].
  destruct (String.eqb_spec m n) as [-> | NE']; cbn.
  - destruct (String.eqb_spec n name); [contradiction | exact IH].
  - destruct (String.eqb m name); [reflexivity | exact IH].
Qed.

Lemma lookup_store_all_eq (entries : list (string * response))
    (cs : list (string * cache)) :
  CacheStorage.lookup name (store_all name entries cs) =
  match CacheStorage.lookup name cs with
  | Some c => Some (insert_all entries c)
  | None => None
  end.
Proof.
  unfold store_all, insert_all. revert cs.
  induction entries as [ | [u r] entries IH]; intros cs; cbn.
  - destruct (CacheStorage.lookup name cs); reflexivity.
  - rewrite IH, lookup_put_eq.
    destruct (CacheStorage.lookup name cs); reflexivity.
Qed.

Lemma lookup_store_all_ne (n : string) (entries : list (string * response))
    (cs : list (string * cache)) :
  n <> name ->
  CacheStorage.lookup name (store_all n entries cs) = CacheStorage.lookup name cs.
Proof.
  intros NE. unfold store_all. revert cs.
  induction entries as [ | [u r] entries IH]; intros cs; cbn; [reflexivity | ].
  rewrite IH. apply lookup_put_ne, NE.
Qed.

End Partitions.

(** ** Entries of one cache *)

Lemma insert_all_snoc (entries : list (string * response)) (e : string * response)
    (c : cache) :
  insert_all (entries ++ [e]) c = <[fst e := snd e]> (insert_all entries c).
Proof. unfold insert_all. rewrite fold_left_app. reflexivity. Qed.

Lemma dom_insert_all (entries : list (string * response)) (c : cache) :
  dom (insert_all entries c) = dom c ∪ list_to_set (map fst entries).
Proof.
  induction entries as [ | e entries IH] using rev_ind.
  - cbn. set_solver.
  - rewrite insert_all_snoc, dom_insert_L, IH, List.map_app. cbn.
    rewrite list_to_set_app_L. cbn. set_solver.
Qed.

(** When the entries give one response per URL, each of them is found. *)
Lemma lookup_insert_all (entries : list (string * response)) (c : cache)
    (u : string) (r : response) :
  (forall e e', In e entries -> In e' entries -> fst e = fst e' -> snd e = snd e') ->
  In (u, r) entries ->
  insert_all entries c !! u = Some r.
Proof.
  induction entries as [ | e entries IH] using rev_ind; intros Hfun Hin.
  - destruct Hin.
  - rewrite insert_all_snoc.
    destruct (decide (fst e = u)) as [E | NE].
    + rewrite E, lookup_insert_eq. f_equal.
      apply (Hfun e (u, r)); [apply in_or_app; right; left; reflexivity
                             | exact Hin | exact E].
    + rewrite lookup_insert_ne by exact NE.
      apply IH.
      * intros e1 e2 H1 H2. apply Hfun; apply in_or_app; left; assumption.
      * apply in_app_or in Hin. destruct Hin as [Hin | [Heq | []]];
          [exact Hin | subst e; contradiction NE; reflexivity].
Qed.

Section Entries.

Variable origin : string.
Variable net : request -> outcome response.

Lemma entries_of_net (paths : list string) (e : string * response) :
  In e (entries_of origin net paths) ->
  net (get_request (fst e)) = Fulfilled (snd e).
Proof.
  induction paths as [ | path paths IH]; cbn; [intros [] | ].
  destruct (net (get_request (resolve origin path))) as [r | err] eqn:E; [ | exact IH].
  intros [<- | Hin]; [exact E | exact (IH Hin)].
Qed.

Lemma entries_of_functional (paths : list string) (e e' : string * response) :
  In e (entries_of origin net paths) -> In e' (entries_of origin net paths) ->
  fst e = fst e' -> snd e = snd e'.
Proof.
  intros H H' E. apply entries_of_net in H, H'. rewrite E in H. congruence.
Qed.

Lemma entries_of_keys (paths : list string) :
  paths_ok origin net paths = true ->
  map fst (entries_of origin net paths) = map (resolve origin) paths.
Proof.
  induction paths as [ | path paths IH]; [reflexivity | ].
  unfold paths_ok in *. cbn.
  destruct (net (get_request (resolve origin path))) as [r | err]; cbn;
    [ | discriminate].
  intros H. apply andb_true_iff in H. destruct H as [_ H].
  f_equal. apply IH, H.
Qed.

Lemma entries_of_path (paths : list string) (path : string) :
  paths_ok origin net paths = true -> In path paths ->
  exists r, net (get_request (resolve origin path)) = Fulfilled r
            /\ In (resolve origin path, r) (entries_of origin net paths).
Proof.
  induction paths as [ | p paths IH]; [intros _ [] | ].
  unfold paths_ok in *. cbn.
  destruct (net (get_request (resolve origin p))) as [r | err] eqn:E; cbn;
    [ | discriminate].
  intros H. apply andb_true_iff in H. destruct H as [_ H].
  intros [-> | Hin].
  - exists r. split; [exact E | left; reflexivity].
  - destruct (IH H Hin) as (r' & Hr' & Hin'). exists r'. split; [exact Hr' | right; exact Hin'].
Qed.

(** What a populated cache holds: exactly the resolved paths, each with the
    network's response. *)
Lemma populated_cache (paths : list string) (c : cache) :
  paths_ok origin net paths = true ->
  dom (insert_all (entries_of origin net paths) c)
    = dom c ∪ list_to_set (map (resolve origin) paths) /\
  forall path, In path paths ->
    exists r, net (get_request (resolve origin path)) = Fulfilled r /\
              insert_all (entries_of origin net paths) c !! resolve origin path = Some r.
Proof.
  intros Hok. split.
  - rewrite dom_insert_all, (entries_of_keys paths Hok). reflexivity.
  - intros path Hin. destruct (entries_of_path paths path Hok Hin) as (r & Hr & He).
    exists r. split; [exact Hr | ].
    apply lookup_insert_all; [apply entries_of_functional | exact He].
Qed.

End Entries.

(** ** Install *)

Arguments cache_addAll : simpl never.
Arguments entries_of : simpl never.
Arguments paths_ok : simpl never.
Arguments store_all : simpl never.

(** C1, as the script has it: the promise given to the install event's
    [waitUntil] always fulfils, because the handler catches the failure of
    the population and only logs it.  [skipWaiting] is signalled exactly when
    the manifest was stored, and then the static cache holds every manifest
    path with the network's response; when the population fails the error is
    logged, nothing is stored and [skipWaiting] is not called. *)
Theorem install_always_settles_and_skips_waiting_iff_populated
    (origin : string) (net : request -> outcome response) (w : world) :
  fst (on_install origin net w) = Fulfilled tt /\
  if manifest_ok origin net
  then skip_waiting (snd (on_install origin net w)) = true /\
       caches (snd (on_install origin net w))
         = store_all STATIC_CACHE (entries_of origin net STATIC_FILES)
             (CacheStorage.open STATIC_CACHE (caches w)) /\
       exists c,
         CacheStorage.lookup STATIC_CACHE (caches (snd (on_install origin net w)))
           = Some c /\
         forall path, In path STATIC_FILES ->
           exists r, net (get_request (resolve origin path)) = Fulfilled r /\
                     c !! resolve origin path = Some r
  else skip_waiting (snd (on_install origin net w)) = skip_waiting w /\
       caches (snd (on_install origin net w))
         = CacheStorage.open STATIC_CACHE (caches w) /\
       exists e,
         In (ConsoleError "Service Worker: Error caching static files" e)
            (console (snd (on_install origin net w))).
Proof.
  unfold on_install, waitUntil, then_, catch_, console_log, caches_open,
    skipWaiting, console_error, manifest_ok. cbn.
  set (w1 := add_console _ (set_caches _ (add_console _ w))).
  pose proof (cache_addAll_run origin net STATIC_CACHE STATIC_FILES w1) as Hrun.
  pose proof (cache_addAll_frame origin net STATIC_CACHE STATIC_FILES w1)
    as (Hcon & Hskip & _).
  destruct (paths_ok origin net STATIC_FILES) eqn:Hok.
  - destruct Hrun as [Ho Hcs].
    destruct (cache_addAll origin net STATIC_CACHE STATIC_FILES w1)
      as [[[] | e] w2]; cbn in *; [ | discriminate].
    split; [reflexivity | ]. split; [reflexivity | ]. split; [exact Hcs | ].
    rewrite Hcs, lookup_store_all_eq, lookup_open_eq.
    destruct (CacheStorage.lookup STATIC_CACHE (caches w)) as [c | ];
      eexists; (split; [reflexivity
                       | apply (proj2 (populated_cache origin net STATIC_FILES _ Hok))]).
  - destruct Hrun as [[e Ho] Hcs].
    destruct (cache_addAll origin net STATIC_CACHE STATIC_FILES w1)
      as [[[] | e'] w2]; cbn in *; [discriminate | ].
    split; [reflexivity | ]. split; [exact Hskip | ]. split; [exact Hcs | ].
    exists e'. apply in_or_app. right. left. reflexivity.
Qed.

(** C1 as stated fails: with the network down the population fails, and
    the promise given to [waitUntil] fulfils all the same. *)
Lemma install_failure_does_not_reject :
  manifest_ok site_origin net_down = false /\
  fst (cache_addAll site_origin net_down STATIC_CACHE STATIC_FILES empty_world)
    = Rejected (NetworkError "Failed to fetch") /\
  fst (on_install site_origin net_down empty_world) = Fulfilled tt /\
  (forall e, fst (on_install site_origin net_down empty_world) <> Rejected e) /\
  CacheStorage.lookup STATIC_CACHE
    (caches (snd (on_install site_origin net_down empty_world))) = Some ∅.
Proof.
  assert (H : fst (on_install site_origin net_down empty_world) = Fulfilled tt)
    by (vm_compute; reflexivity).
  by_evaluation. intros e. rewrite H. discriminate.
Qed.

(** ** Activate *)

Lemma filter_filter_andb {A} (f g : A -> bool) (l : list A) :
  List.filter f (List.filter g l) = List.filter (fun x => g x && f x) l.
Proof.
  induction l as [ | x l IH]; cbn; [reflexivity | ].
  destruct (g x); cbn; [ | exact IH].
  destruct (f x); [f_equal | ]; exact IH.
Qed.

Lemma stale_spec (n : string) :
  stale n = false <-> n = STATIC_CACHE \/ n = DYNAMIC_CACHE.
Proof.
  unfold stale.
  destruct (String.eqb_spec n STATIC_CACHE), (String.eqb_spec n DYNAMIC_CACHE);
    cbn; intuition congruence.
Qed.

(** Sweeping a list of names removes the stale partitions with these names. *)
Lemma sweep_filter (names : list string) (cs : list (string * cache)) :
  sweep names cs =
  List.filter (fun nc => negb (stale (fst nc)
                               && existsb (String.eqb (fst nc)) names)) cs.
Proof.
  unfold sweep. revert cs.
  induction names as [ | n names IH]; intros cs; cbn.
  - induction cs as [ | nc cs IHcs]; cbn; [reflexivity | ].
    rewrite andb_false_r. cbn. f_equal. exact IHcs.
  - rewrite IH. destruct (stale n) eqn:Hn.
    + unfold CacheStorage.delete. rewrite filter_filter_andb.
      apply List.filter_ext. intros [m c]. cbn.
      destruct (String.eqb_spec m n) as [-> | NE]; cbn.
      * rewrite Hn. reflexivity.
      * reflexivity.
    + apply List.filter_ext. intros [m c]. cbn.
      destruct (String.eqb_spec m n) as [-> | NE]; cbn.
      * rewrite Hn. reflexivity.
      * reflexivity.
Qed.

Lemma sweep_keys (cs : list (string * cache)) :
  sweep (CacheStorage.keys cs) cs =
  List.filter (fun nc => String.eqb (fst nc) STATIC_CACHE
                         || String.eqb (fst nc) DYNAMIC_CACHE) cs.
Proof.
  rewrite sweep_filter. apply List.filter_ext_in. intros [n c] Hin. cbn.
  assert (Hex : existsb (String.eqb n) (CacheStorage.keys cs) = true).
  { apply existsb_exists. exists n. split; [ | apply String.eqb_refl].
    unfold CacheStorage.keys. change n with (fst (n, c)). apply in_map, Hin. }
  rewrite Hex, andb_true_r. unfold stale.
  destruct (String.eqb n STATIC_CACHE), (String.eqb n DYNAMIC_CACHE); reflexivity.
Qed.

Lemma promise_all_deletions (names : list string) (w : world) :
  fst (promise_all (map delete_if_stale names) w)
    = Fulfilled (map (fun _ => tt) names) /\
  caches (snd (promise_all (map delete_if_stale names) w))
    = sweep names (caches w).
Proof.
  unfold sweep. revert w. induction names as [ | n names IH]; intros w.
  - cbn. auto.
  - cbn [map promise_all fold_left].
    destruct (delete_if_stale n w) as [o w1] eqn:E1.
    assert (Hstep : o = Fulfilled tt /\
                    caches w1 = if stale n then CacheStorage.delete n (caches w)
                                else caches w).
    { unfold delete_if_stale, stale in *.
      destruct (negb (n =? STATIC_CACHE)%string && negb (n =? DYNAMIC_CACHE)%string);
        cbn in E1; injection E1 as <- <-; auto. }
    destruct Hstep as [-> Hcs]. specialize (IH w1). destruct IH as [IHo IHcs].
    destruct (promise_all (map delete_if_stale names) w1) as [os w2].
    cbn in *. subst os. rewrite IHcs, Hcs. auto.
Qed.

(** C7: the activate handler completes, and afterwards the partitions
    are exactly the former partitions named by the current static or the
    current dynamic identifier, untouched and in their order: no partition
    with another name exists.  The worker has claimed the open pages. *)
Theorem activate_leaves_only_current_caches (w : world) :
  fst (on_activate w) = Fulfilled tt /\
  caches (snd (on_activate w))
    = List.filter (fun nc => String.eqb (fst nc) STATIC_CACHE
                             || String.eqb (fst nc) DYNAMIC_CACHE) (caches w) /\
  (forall name, In name (CacheStorage.keys (caches (snd (on_activate w)))) ->
                name = STATIC_CACHE \/ name = DYNAMIC_CACHE) /\
  clients_claimed (snd (on_activate w)) = true.
Proof.
  assert (H : fst (on_activate w) = Fulfilled tt /\
              caches (snd (on_activate w))
                = sweep (CacheStorage.keys (caches w)) (caches w) /\
              clients_claimed (snd (on_activate w)) = true).
  { unfold on_activate, waitUntil, then_, console_log, caches_keys, clients_claim.
    cbn.
    change (fun cacheName : string => _) with delete_if_stale.
    pose proof (promise_all_deletions (CacheStorage.keys (caches w))
                  (add_console (ConsoleLog ["Service Worker: Activating..."]) w))
      as [Ho Hcs].
    destruct (promise_all _ _) as [o w1]. cbn in *. subst o. cbn. auto. }
  destruct H as (Ho & Hcs & Hcl). rewrite sweep_keys in Hcs.
  split; [exact Ho | ]. split; [exact Hcs | ]. split; [ | exact Hcl].
  intros name Hin. rewrite Hcs in Hin. unfold CacheStorage.keys in Hin.
  apply in_map_iff in Hin. destruct Hin as ([n c] & <- & Hin).
  apply List.filter_In in Hin. destruct Hin as [_ Hkeep]. cbn in *.
  apply orb_true_iff in Hkeep.
  destruct Hkeep as [Hk | Hk]; apply String.eqb_eq in Hk; auto.
Qed.

(** ** Control messages *)

Lemma data_type_is_true (event : message_event) (t : string) :
  data_type_is event t = true -> data event = Some (MessageData t).
Proof.
  unfold data_type_is. destruct (data event) as [[t'] | ]; [ | discriminate].
  cbn. intros H. apply String.eqb_eq in H. subst t'. reflexivity.
Qed.

(** C3, as the script has it: a message whose payload has the type
    GET_VERSION and that brings a response port is answered, on that port
    (the first of the event), with [{version: CACHE_NAME}], the worker's
    version tag; the handler completes and changes no cache. *)
Theorem get_version_replies_with_cache_name
    (origin : string) (net : request -> outcome response)
    (event : message_event) (port : nat) (others : list nat) (w : world) :
  data_type_is event "GET_VERSION" = true ->
  ports event = port :: others ->
  fst (on_message origin net event w) = Fulfilled tt /\
  posted (snd (on_message origin net event w))
    = (posted w ++ [(port, VersionMessage CACHE_NAME)])%list /\
  caches (snd (on_message origin net event w)) = caches w /\
  skip_waiting (snd (on_message origin net event w)) = skip_waiting w.
Proof.
  intros Hd Hp. apply data_type_is_true in Hd.
  unfold on_message, data_type_is, port_postMessage. rewrite Hd, Hp. cbn.
  auto.
Qed.

(** The version tag is the name of no cache the worker uses. *)
Lemma cache_name_is_no_partition :
  CACHE_NAME <> STATIC_CACHE /\ CACHE_NAME <> DYNAMIC_CACHE.
Proof. split; discriminate. Qed.

(** C3 as stated fails: the version sent is not the identifier of the
    static cache. *)
Lemma get_version_is_not_static_cache_name :
  data_type_is version_event "GET_VERSION" = true /\
  ports version_event = [7%nat] /\
  posted (snd (on_message site_origin net_up version_event installed_world))
    = [(7%nat, VersionMessage "bastelglueck-v1")] /\
  STATIC_CACHE = "bastelglueck-static-v1" /\
  posted (snd (on_message site_origin net_up version_event installed_world))
    <> [(7%nat, VersionMessage STATIC_CACHE)].
Proof.
  assert (H : posted (snd (on_message site_origin net_up version_event installed_world))
              = [(7%nat, VersionMessage "bastelglueck-v1")])
    by (vm_compute; reflexivity).
  by_evaluation. rewrite H. discriminate.
Qed.

Lemma get_version_replies_with_cache_name_witness :
  (data_type_is version_event "GET_VERSION" = true /\
   ports version_event = [7%nat]) /\
  (fst (on_message site_origin net_up version_event installed_world) = Fulfilled tt /\
   posted (snd (on_message site_origin net_up version_event installed_world))
     = (posted installed_world ++ [(7%nat, VersionMessage CACHE_NAME)])%list /\
   caches (snd (on_message site_origin net_up version_event installed_world))
     = caches installed_world /\
   skip_waiting (snd (on_message site_origin net_up version_event installed_world))
     = skip_waiting installed_world).
Proof.
  split.
  - by_evaluation.
  - apply (get_version_replies_with_cache_name site_origin net_up version_event
             7%nat [] installed_world); vm_compute; reflexivity.
Defined.

(** C8, as the script has it: on a CACHE_UPDATE message the static cache is
    deleted and recreated, so its prior entries are gone, and no other
    partition changes.  When every manifest path is answered by the network
    with an ok response, the handler completes and the static cache then
    holds exactly the manifest paths, each with the network's response;
    otherwise the handler's promise rejects and the static cache is left
    empty. *)
Theorem cache_update_repopulates_when_network_answers
    (origin : string) (net : request -> outcome response)
    (event : message_event) (w : world) :
  data_type_is event "CACHE_UPDATE" = true ->
  (forall n, n <> STATIC_CACHE ->
     CacheStorage.lookup n (caches (snd (on_message origin net event w)))
       = CacheStorage.lookup n (caches w)) /\
  if manifest_ok origin net
  then fst (on_message origin net event w) = Fulfilled tt /\
       exists c : cache,
         CacheStorage.lookup STATIC_CACHE (caches (snd (on_message origin net event w)))
           = Some c /\
         dom c = list_to_set (map (resolve origin) STATIC_FILES) /\
         forall path, In path STATIC_FILES ->
           exists r, net (get_request (resolve origin path)) = Fulfilled r /\
                     c !! resolve origin path = Some r
  else (exists e, fst (on_message origin net event w) = Rejected e) /\
       CacheStorage.lookup STATIC_CACHE (caches (snd (on_message origin net event w)))
         = Some ∅.
Proof.
  intros Hd. apply data_type_is_true in Hd.
  unfold on_message, data_type_is, waitUntil, then_, console_log, caches_delete,
    caches_open, manifest_ok.
  rewrite Hd. cbn.
  set (w1 := set_caches _ (set_caches _ (add_console _ w))).
  assert (Hc1 : caches w1
                = CacheStorage.open STATIC_CACHE
                    (CacheStorage.delete STATIC_CACHE (caches w)))
    by reflexivity.
  pose proof (cache_addAll_run origin net STATIC_CACHE STATIC_FILES w1) as Hrun.
  assert (Hfresh : CacheStorage.lookup STATIC_CACHE (caches w1) = Some ∅).
  { rewrite Hc1, lookup_open_eq, lookup_delete_eq. reflexivity. }
  assert (Hother : forall n, n <> STATIC_CACHE ->
            CacheStorage.lookup n (caches w1) = CacheStorage.lookup n (caches w)).
  { intros n NE. rewrite Hc1, lookup_open_ne, lookup_delete_ne; auto. }
  destruct (paths_ok origin net STATIC_FILES) eqn:Hok.
  - destruct Hrun as [Ho Hcs].
    destruct (cache_addAll origin net STATIC_CACHE STATIC_FILES w1)
      as [[[] | e] w2]; cbn in *; [ | discriminate].
    split.
    + intros n NE. rewrite Hcs, lookup_store_all_ne; auto.
    + split; [reflexivity | ].
      exists (insert_all (entries_of origin net STATIC_FILES) ∅).
      split; [rewrite Hcs, lookup_store_all_eq, Hfresh; reflexivity | ].
      destruct (populated_cache origin net STATIC_FILES ∅ Hok) as [Hdom Hall].
      split; [ | exact Hall].
      rewrite Hdom, dom_empty_L. apply (left_id_L ∅ (∪)).
  - destruct Hrun as [[e Ho] Hcs].
    destruct (cache_addAll origin net STATIC_CACHE STATIC_FILES w1)
      as [[[] | e'] w2]; cbn in *; [discriminate | ].
    split.
    + intros n NE. rewrite Hcs. auto.
    + split; [eauto | ]. rewrite Hcs. exact Hfresh.
Qed.

(** C8 as stated fails: a CACHE_UPDATE message that arrives while the
    network is down discards the static entries and stores nothing; the
    static cache does not contain the manifest paths afterwards. *)
Lemma cache_update_offline_empties_static_cache :
  data_type_is update_event "CACHE_UPDATE" = true /\
  manifest_ok site_origin net_down = false /\
  static_entry (resolve site_origin "/index.html") installed_world
    = Some (page ("content of " ++ resolve site_origin "/index.html")) /\
  CacheStorage.lookup STATIC_CACHE
    (caches (snd (on_message site_origin net_down update_event installed_world)))
    = Some ∅ /\
  ~ (exists c : cache,
       CacheStorage.lookup STATIC_CACHE
         (caches (snd (on_message site_origin net_down update_event installed_world)))
         = Some c /\
       dom c = list_to_set (map (resolve site_origin) STATIC_FILES)).
Proof.
  assert (H : CacheStorage.lookup STATIC_CACHE
                (caches (snd (on_message site_origin net_down update_event
                                installed_world))) = Some ∅)
    by (vm_compute; reflexivity).
  split; [vm_compute; reflexivity | ]. split; [vm_compute; reflexivity | ].
  split; [vm_compute; reflexivity | ].
  split; [exact H | ].
  intros (c & Hc & Hd). rewrite H in Hc. injection Hc as <-.
  rewrite dom_empty_L in Hd.
  assert (Hin : resolve site_origin "/" ∈ (∅ : gset string)).
  { rewrite Hd. apply elem_of_list_to_set, list_elem_of_In. left. reflexivity. }
  exact (not_elem_of_empty _ Hin).
Qed.

Lemma cache_update_repopulates_when_network_answers_witness :
  data_type_is update_event "CACHE_UPDATE" = true /\
  ((forall n, n <> STATIC_CACHE ->
      CacheStorage.lookup n
        (caches (snd (on_message site_origin net_up update_event installed_world)))
        = CacheStorage.lookup n (caches installed_world)) /\
   if manifest_ok site_origin net_up
   then fst (on_message site_origin net_up update_event installed_world) = Fulfilled tt /\
        exists c : cache,
          CacheStorage.lookup STATIC_CACHE
            (caches (snd (on_message site_origin net_up update_event installed_world)))
            = Some c /\
          dom c = list_to_set (map (resolve site_origin) STATIC_FILES) /\
          forall path, In path STATIC_FILES ->
            exists r, net_up (get_request (resolve site_origin path)) = Fulfilled r /\
                      c !! resolve site_origin path = Some r
   else (exists e, fst (on_message site_origin net_up update_event installed_world)
                     = Rejected e) /\
        CacheStorage.lookup STATIC_CACHE
          (caches (snd (on_message site_origin net_up update_event installed_world)))
          = Some ∅).
Proof.
  split.
  - vm_compute. reflexivity.
  - apply (cache_update_repopulates_when_network_answers site_origin net_up
             update_event installed_world).
    vm_compute. reflexivity.
Defined.

(** * Further properties of the worker *)

(** ** Which requests the fetch handler touches *)

(** X1: the fetch handler calls [respondWith] exactly for the GET requests
    whose URL begins with the text of [self.location.origin]; for every
    other request it returns at once and leaves the worker's world as it
    was, without even a console line. *)
Theorem fetch_intercepts_exactly_prefixed_gets
    (origin : string) (net : request -> outcome response)
    (rq : request) (w : world) :
  (fst (on_fetch origin net rq w) <> PassThrough <->
   method rq = "GET" /\ startsWith (url rq) origin = true) /\
  (fst (on_fetch origin net rq w) = PassThrough ->
   snd (on_fetch origin net rq w) = w).
Proof.
  split; [apply intercepted_iff | ].
  destruct (String.eqb_spec (method rq) "GET") as [Hm | Hm];
    [ | rewrite (non_get_passes_through origin net rq w Hm); reflexivity].
  destruct (startsWith (url rq) origin) eqn:Hp;
    [ | rewrite (unprefixed_passes_through origin net rq w Hp); reflexivity].
  rewrite (on_fetch_intercepted origin net rq w Hm Hp). discriminate.
Qed.

(** The fetch handler itself changes no partition. *)
Lemma on_fetch_caches
    (origin : string) (net : request -> outcome response)
    (rq : request) (w : world) :
  caches (snd (on_fetch origin net rq w)) = caches w.
Proof.
  unfold on_fetch.
  destruct (negb (method rq =? "GET")%string); [cbn; reflexivity | ].
  destruct (negb (startsWith (url rq) origin)); [cbn; reflexivity | ].
  unfold respond, then_, catch_, ret, throw, caches_match, console_log,
    console_error, fetch, spawn, accept_includes. cbn.
  destruct (CacheStorage.match_ (url rq) (caches w)) as [r | ]; cbn; [reflexivity | ].
  destruct (net rq) as [r | e]; cbn.
  - destruct (negb (status r =? 200) || negb (response_type_eqb (type r) Basic));
      cbn; reflexivity.
  - destruct (headers_get (req_headers rq) "accept") as [a | ]; cbn; [ | reflexivity].
    destruct (includes a "text/html"); cbn; [reflexivity | ].
    destruct (includes a "image"); cbn; reflexivity.
Qed.

(** X2: whatever the request and the network, one run of the fetch handler
    changes no cache partition, does not call [skipWaiting] or
    [clients.claim], posts no message, and issues at most one network fetch,
    for the URL of the intercepted request. *)
Theorem fetch_handler_writes_nothing_and_fetches_at_most_once
    (origin : string) (net : request -> outcome response)
    (rq : request) (w : world) :
  caches (snd (on_fetch origin net rq w)) = caches w /\
  skip_waiting (snd (on_fetch origin net rq w)) = skip_waiting w /\
  clients_claimed (snd (on_fetch origin net rq w)) = clients_claimed w /\
  posted (snd (on_fetch origin net rq w)) = posted w /\
  (net_calls (snd (on_fetch origin net rq w)) = net_calls w \/
   net_calls (snd (on_fetch origin net rq w)) = (net_calls w ++ [url rq])%list).
Proof.
  unfold on_fetch.
  destruct (negb (method rq =? "GET")%string); [cbn; tauto | ].
  destruct (negb (startsWith (url rq) origin)); [cbn; tauto | ].
  unfold respond, then_, catch_, ret, throw, caches_match, console_log,
    console_error, fetch, spawn, accept_includes. cbn.
  destruct (CacheStorage.match_ (url rq) (caches w)) as [r | ]; cbn; [tauto | ].
  destruct (net rq) as [r | e]; cbn.
  - destruct (negb (status r =? 200) || negb (response_type_eqb (type r) Basic));
      cbn; tauto.
  - destruct (headers_get (req_headers rq) "accept") as [a | ]; cbn; [ | tauto].
    destruct (includes a "text/html"); cbn; [tauto | ].
    destruct (includes a "image"); cbn; tauto.
Qed.

(** X3: the offline fallback for an intercepted request that carries an
    accept header, misses the cache and fails on the network: when the
    header contains text/html the answer is whatever the cache lookup of the
    home document gives (the stored response, or [undefined] when none is
    stored); otherwise, when it contains image, the placeholder image;
    otherwise the promise rejects with the network's error. *)
Theorem offline_fallback_by_accept_header
    (origin : string) (net : request -> outcome response)
    (rq : request) (w : world) (e : error) (accept : string) :
  method rq = "GET" ->
  startsWith (url rq) origin = true ->
  CacheStorage.match_ (url rq) (caches w) = None ->
  net rq = Rejected e ->
  headers_get (req_headers rq) "accept" = Some accept ->
  fst (on_fetch origin net rq w) =
    RespondWith
      (if includes accept "text/html"
       then Fulfilled (CacheStorage.match_ (resolve origin "/index.html") (caches w))
       else if includes accept "image"
            then Fulfilled (Some placeholder_image)
            else Rejected e) /\
  pending (snd (on_fetch origin net rq w)) = pending w.
Proof.
  intros Hm Hp Hmiss Hnet Hacc.
  destruct (miss_network_failure origin net rq w e Hm Hp Hmiss Hnet)
    as (Hres & _ & Hpend).
  rewrite Hacc in Hres. auto.
Qed.

(** X4: an intercepted image request (accept header containing image but
    not text/html) that misses the cache and fails on the network is
    answered with a successful response of content type image/svg+xml. *)
Theorem offline_image_is_an_svg_response
    (origin : string) (net : request -> outcome response)
    (rq : request) (w : world) (e : error) (accept : string) :
  method rq = "GET" ->
  startsWith (url rq) origin = true ->
  CacheStorage.match_ (url rq) (caches w) = None ->
  net rq = Rejected e ->
  headers_get (req_headers rq) "accept" = Some accept ->
  includes accept "text/html" = false ->
  includes accept "image" = true ->
  exists r,
    fst (on_fetch origin net rq w) = RespondWith (Fulfilled (Some r)) /\
    ok r = true /\ status r = 200 /\
    headers_get (resp_headers r) "Content-Type" = Some "image/svg+xml" /\
    includes (body r) "<svg" = true.
Proof.
  intros Hm Hp Hmiss Hnet Hacc Hhtml Himg.
  destruct (miss_network_failure origin net rq w e Hm Hp Hmiss Hnet)
    as (Hres & _).
  rewrite Hacc, Hhtml, Himg in Hres.
  exists placeholder_image. split; [exact Hres | ]. by_evaluation.
Qed.

Lemma lookup_apply_task_ne (n : string) (t : task) (cs : list (string * cache)) :
  task_cache t <> n ->
  CacheStorage.lookup n (apply_task cs t) = CacheStorage.lookup n cs.
Proof.
  destruct t as [m u r]. cbn. intros NE.
  rewrite lookup_put_ne, lookup_open_ne; auto.
Qed.

Lemma lookup_apply_tasks_ne (n name : string) (ts : list task)
    (cs : list (string * cache)) :
  name <> n ->
  Forall (fun t => task_cache t = name) ts ->
  CacheStorage.lookup n (fold_left apply_task ts cs) = CacheStorage.lookup n cs.
Proof.
  intros NE Hts. revert cs.
  induction Hts as [ | t ts Ht Hts IH]; intros cs; cbn; [reflexivity | ].
  rewrite IH. apply lookup_apply_task_ne. congruence.
Qed.

(** X5: the work a fetch interception leaves behind only ever writes to the
    dynamic cache: once it has run, every partition with another name, the
    static cache included, is what it was before the interception. *)
Theorem fetch_never_writes_outside_dynamic_cache
    (origin : string) (net : request -> outcome response)
    (rq : request) (w : world) (n : string) :
  Forall (fun t => task_cache t = DYNAMIC_CACHE) (pending w) ->
  n <> DYNAMIC_CACHE ->
  CacheStorage.lookup n (caches (run_pending (snd (on_fetch origin net rq w))))
    = CacheStorage.lookup n (caches w).
Proof.
  intros Hq NE. rewrite run_pending_caches.
  rewrite (lookup_apply_tasks_ne n DYNAMIC_CACHE);
    [ | congruence | apply on_fetch_pending_dynamic, Hq].
  rewrite on_fetch_caches. reflexivity.
Qed.

(** ** Install, then requests *)


Lemma lookup_entry_matched (name u : string) (cs : list (string * cache))
    (c : cache) (r : response) :
  CacheStorage.lookup name cs = Some c -> c !! u = Some r ->
  exists r', CacheStorage.match_ u cs = Some r'.
Proof.
  induction cs as [ | [n c0] cs IH]; cbn; [discriminate | ].
  intros Hl Hc. destruct (c0 !! u) as [r0 | ] eqn:E0; [eauto | ].
  destruct (String.eqb n name); [ | eauto].
  injection Hl as ->. congruence.
Qed.

Lemma match_app (u : string) (cs cs' : list (string * cache)) :
  CacheStorage.match_ u (cs ++ cs') =
  match CacheStorage.match_ u cs with
  | Some r => Some r
  | None => CacheStorage.match_ u cs'
  end.
Proof.
  induction cs as [ | [n c] cs IH]; cbn; [reflexivity | ].
  destruct (c !! u); [reflexivity | exact IH].
Qed.

(** Storing entries rewrites the partitions of that name, one by one. *)
Lemma store_all_map (name : string) (entries : list (string * response))
    (cs : list (string * cache)) :
  store_all name entries cs =
  map (fun nc => if String.eqb (fst nc) name
                 then (fst nc, insert_all entries (snd nc)) else nc) cs.
Proof.
  unfold store_all, insert_all. revert cs.
  induction entries as [ | [u r] entries IH]; intros cs; cbn.
  - induction cs as [ | [n c] cs IHcs]; cbn; [reflexivity | ].
    rewrite <- IHcs. destruct (String.eqb n name); reflexivity.
  - rewrite IH. unfold CacheStorage.put. rewrite List.map_map.
    apply List.map_ext. intros [n c]. cbn.
    destruct (String.eqb n name) eqn:E; cbn; rewrite E; reflexivity.
Qed.

Lemma keys_store_all (name : string) (entries : list (string * response))
    (cs : list (string * cache)) :
  CacheStorage.keys (store_all name entries cs) = CacheStorage.keys cs.
Proof.
  rewrite store_all_map. unfold CacheStorage.keys. rewrite List.map_map.
  apply List.map_ext. intros [n c]. cbn. destruct (String.eqb n name); reflexivity.
Qed.

Lemma settled_store_all (name u : string) (r : response)
    (entries : list (string * response)) (cs : list (string * cache)) :
  (forall c : cache, insert_all entries c !! u = Some r) ->
  lacks_outside name u cs ->
  settled name u r (store_all name entries cs).
Proof.
  intros Hins. rewrite store_all_map. unfold lacks_outside, settled.
  induction 1 as [ | [n c] cs Hn Hcs IH]; cbn; constructor; [ | exact IH].
  destruct (String.eqb_spec n name) as [-> | NE]; cbn in *.
  - rewrite String.eqb_refl. apply Hins.
  - destruct (String.eqb_spec n name); [contradiction | auto].
Qed.

Arguments insert_all : simpl never.

(** The world the install handler leaves. *)
Lemma on_install_run (origin : string) (net : request -> outcome response)
    (w : world) :
  caches (snd (on_install origin net w))
    = (if manifest_ok origin net
       then store_all STATIC_CACHE (entries_of origin net STATIC_FILES)
              (CacheStorage.open STATIC_CACHE (caches w))
       else CacheStorage.open STATIC_CACHE (caches w)) /\
  clients_claimed (snd (on_install origin net w)) = clients_claimed w /\
  posted (snd (on_install origin net w)) = posted w /\
  pending (snd (on_install origin net w)) = pending w.
Proof.
  unfold on_install, waitUntil, then_, catch_, console_log, caches_open,
    skipWaiting, console_error, manifest_ok. cbn.
  set (w1 := add_console _ (set_caches _ (add_console _ w))).
  pose proof (cache_addAll_run origin net STATIC_CACHE STATIC_FILES w1) as Hrun.
  pose proof (cache_addAll_frame origin net STATIC_CACHE STATIC_FILES w1)
    as (_ & _ & Hcl & Hpo & Hpe).
  destruct (paths_ok origin net STATIC_FILES).
  - destruct Hrun as [Ho Hcs].
    destruct (cache_addAll origin net STATIC_CACHE STATIC_FILES w1)
      as [[[] | e] w2]; cbn in *; [auto | discriminate].
  - destruct Hrun as [[e Ho] Hcs].
    destruct (cache_addAll origin net STATIC_CACHE STATIC_FILES w1)
      as [[[] | e'] w2]; cbn in *; [discriminate | auto].
Qed.

(** After a successful install every manifest URL has a match. *)
Lemma installed_match (origin : string) (net : request -> outcome response)
    (w : world) (path : string) :
  manifest_ok origin net = true ->
  In path STATIC_FILES ->
  exists r,
    CacheStorage.match_ (resolve origin path) (caches (snd (on_install origin net w)))
      = Some r /\
    (lacks_outside STATIC_CACHE (resolve origin path) (caches w) ->
     net (get_request (resolve origin path)) = Fulfilled r).
Proof.
  intros Hok Hin.
  destruct (on_install_run origin net w) as (Hcs & _). rewrite Hok in Hcs.
  unfold manifest_ok in Hok.
  assert (Hall : forall c : cache,
            exists r, net (get_request (resolve origin path)) = Fulfilled r /\
                      insert_all (entries_of origin net STATIC_FILES) c
                        !! resolve origin path = Some r).
  { intros c. apply (proj2 (populated_cache origin net STATIC_FILES c Hok)), Hin. }
  assert (Hl : exists c, CacheStorage.lookup STATIC_CACHE
                           (caches (snd (on_install origin net w)))
                         = Some (insert_all (entries_of origin net STATIC_FILES) c)).
  { rewrite Hcs, lookup_store_all_eq, lookup_open_eq.
    destruct (CacheStorage.lookup STATIC_CACHE (caches w)); eauto. }
  destruct Hl as [c0 Hl]. destruct (Hall c0) as (r0 & Hr0 & Hc0).
  destruct (lookup_entry_matched _ _ _ _ _ Hl Hc0) as [r Hr].
  exists r. split; [exact Hr | ].
  intros Hlack.
  assert (Hs : settled STATIC_CACHE (resolve origin path) r0
                 (caches (snd (on_install origin net w)))).
  { rewrite Hcs. apply settled_store_all.
    - intros c. destruct (Hall c) as (r1 & Hr1 & Hc1). congruence.
    - apply lacks_outside_open, Hlack. }
  assert (Hh : CacheStorage.has STATIC_CACHE
                 (caches (snd (on_install origin net w))) = true).
  { rewrite has_lookup, Hl. reflexivity. }
  rewrite (settled_match _ _ _ _ Hs Hh) in Hr. congruence.
Qed.


(** X7: after an install whose population succeeded, an intercepted HTML
    request (accept header containing text/html) that misses the cache and
    fails on the network is answered with a stored response for the home
    document, never with [undefined]; when no older partition held the home
    document, it is the response the network gave at install time. *)
Theorem offline_navigation_after_install_gets_home_document
    (origin : string) (net net' : request -> outcome response)
    (w : world) (rq : request) (e : error) (accept : string) :
  manifest_ok origin net = true ->
  method rq = "GET" ->
  startsWith (url rq) origin = true ->
  CacheStorage.match_ (url rq) (caches (snd (on_install origin net w))) = None ->
  net' rq = Rejected e ->
  headers_get (req_headers rq) "accept" = Some accept ->
  includes accept "text/html" = true ->
  exists r,
    fst (on_fetch origin net' rq (snd (on_install origin net w)))
      = RespondWith (Fulfilled (Some r)) /\
    (lacks_outside STATIC_CACHE (resolve origin "/index.html") (caches w) ->
     net (get_request (resolve origin "/index.html")) = Fulfilled r).
Proof.
  intros Hok Hm Hp Hmiss Hnet Hacc Hhtml.
  assert (Hin : In "/index.html" STATIC_FILES) by (right; left; reflexivity).
  destruct (installed_match origin net w "/index.html" Hok Hin) as (r & Hr & Hfrom).
  exists r. split; [ | exact Hfrom].
  destruct (miss_network_failure origin net' rq _ e Hm Hp Hmiss Hnet) as (Hres & _).
  rewrite Hacc, Hhtml, Hr in Hres. exact Hres.
Qed.

(** ** What install and activate keep *)

Lemma is_Some_insert_all (entries : list (string * response)) (c : cache) (u : string) :
  is_Some (c !! u) -> is_Some (insert_all entries c !! u).
Proof.
  intros H. apply elem_of_dom. rewrite dom_insert_all.
  apply elem_of_union_l, elem_of_dom, H.
Qed.

(** X8: the install handler never removes anything: whether or not the
    population succeeds, every partition other than the static cache is
    untouched, every URL that had an entry in the static cache still has
    one, and the handler neither claims clients, nor posts a message, nor
    leaves work behind. *)
Theorem install_removes_nothing
    (origin : string) (net : request -> outcome response) (w : world) :
  (forall n, n <> STATIC_CACHE ->
     CacheStorage.lookup n (caches (snd (on_install origin net w)))
       = CacheStorage.lookup n (caches w)) /\
  (forall u, is_Some (static_entry u w) ->
     is_Some (static_entry u (snd (on_install origin net w)))) /\
  clients_claimed (snd (on_install origin net w)) = clients_claimed w /\
  posted (snd (on_install origin net w)) = posted w /\
  pending (snd (on_install origin net w)) = pending w.
Proof.
  destruct (on_install_run origin net w) as (Hcs & Hcl & Hpo & Hpe).
  split; [ | split; [ | auto]].
  - intros n NE. rewrite Hcs. destruct (manifest_ok origin net).
    + rewrite lookup_store_all_ne, lookup_open_ne; auto.
    + rewrite lookup_open_ne; auto.
  - intros u. unfold static_entry. rewrite Hcs.
    destruct (manifest_ok origin net).
    + rewrite lookup_store_all_eq, lookup_open_eq.
      destruct (CacheStorage.lookup STATIC_CACHE (caches w)) as [c | ].
      * apply is_Some_insert_all.
      * intros [x Hx]. discriminate.
    + rewrite lookup_open_eq.
      destruct (CacheStorage.lookup STATIC_CACHE (caches w)) as [c | ]; [auto | ].
      intros [x Hx]. discriminate.
Qed.

Lemma promise_all_deletions_frame (names : list string) (w : world) :
  net_calls (snd (promise_all (map delete_if_stale names) w)) = net_calls w /\
  skip_waiting (snd (promise_all (map delete_if_stale names) w)) = skip_waiting w /\
  posted (snd (promise_all (map delete_if_stale names) w)) = posted w /\
  pending (snd (promise_all (map delete_if_stale names) w)) = pending w.
Proof.
  revert w. induction names as [ | n names IH]; intros w.
  - cbn. auto.
  - cbn [map promise_all].
    destruct (delete_if_stale n w) as [o w1] eqn:E1.
    assert (Hstep : net_calls w1 = net_calls w /\ skip_waiting w1 = skip_waiting w /\
                    posted w1 = posted w /\ pending w1 = pending w).
    { unfold delete_if_stale in E1.
      destruct (negb (n =? STATIC_CACHE)%string && negb (n =? DYNAMIC_CACHE)%string);
        cbn in E1; injection E1 as <- <-; cbn; auto. }
    specialize (IH w1).
    destruct (promise_all (map delete_if_stale names) w1) as [os w2].
    cbn in *. destruct IH as (I1 & I2 & I3 & I4).
    destruct Hstep as (S1 & S2 & S3 & S4).
    split; [congruence | ]. split; [congruence | ]. split; congruence.
Qed.

(** The world the activate handler leaves. *)
Lemma on_activate_run (w : world) :
  caches (snd (on_activate w))
    = List.filter (fun nc => String.eqb (fst nc) STATIC_CACHE
                             || String.eqb (fst nc) DYNAMIC_CACHE) (caches w) /\
  net_calls (snd (on_activate w)) = net_calls w /\
  skip_waiting (snd (on_activate w)) = skip_waiting w /\
  posted (snd (on_activate w)) = posted w /\
  pending (snd (on_activate w)) = pending w.
Proof.
  unfold on_activate, waitUntil, then_, console_log, caches_keys, clients_claim.
  cbn.
  change (fun cacheName : string => _) with delete_if_stale.
  set (w0 := add_console (ConsoleLog ["Service Worker: Activating..."]) w).
  pose proof (promise_all_deletions (CacheStorage.keys (caches w)) w0) as [Ho Hcs].
  pose proof (promise_all_deletions_frame (CacheStorage.keys (caches w)) w0)
    as (H1 & H2 & H3 & H4).
  destruct (promise_all _ _) as [o w1]. cbn in *. subst o. cbn.
  rewrite Hcs, sweep_keys. auto.
Qed.

Lemma lookup_filter_names (f : string -> bool) (name : string)
    (cs : list (string * cache)) :
  f name = true ->
  CacheStorage.lookup name (List.filter (fun nc => f (fst nc)) cs)
    = CacheStorage.lookup name cs.
Proof.
  intros Hf. induction cs as [ | [n c] cs IH]; cbn; [reflexivity | ].
  destruct (f n) eqn:Hn; cbn.
  - destruct (String.eqb n name); [reflexivity | exact IH].
  - destruct (String.eqb_spec n name) as [-> | _]; [congruence | exact IH].
Qed.

Lemma filter_idempotent {A} (f : A -> bool) (l : list A) :
  List.filter f (List.filter f l) = List.filter f l.
Proof.
  induction l as [ | x l IH]; cbn; [reflexivity | ].
  destruct (f x) eqn:E; cbn; [rewrite E, IH | ]; auto.
Qed.

(** X9: activation only ever deletes partitions of other names: the static
    and the dynamic cache come out with the entries they had; activating a
    second time changes no partition; and activation fetches nothing, starts
    no work and posts no message. *)
Theorem activate_keeps_current_caches (w : world) :
  CacheStorage.lookup STATIC_CACHE (caches (snd (on_activate w)))
    = CacheStorage.lookup STATIC_CACHE (caches w) /\
  CacheStorage.lookup DYNAMIC_CACHE (caches (snd (on_activate w)))
    = CacheStorage.lookup DYNAMIC_CACHE (caches w) /\
  caches (snd (on_activate (snd (on_activate w)))) = caches (snd (on_activate w)) /\
  net_calls (snd (on_activate w)) = net_calls w /\
  pending (snd (on_activate w)) = pending w /\
  posted (snd (on_activate w)) = posted w.
Proof.
  destruct (on_activate_run w) as (Hcs & Hn & _ & Hpo & Hpe).
  destruct (on_activate_run (snd (on_activate w))) as (Hcs2 & _).
  rewrite Hcs2, Hcs.
  split; [ | split; [ | split; [apply filter_idempotent | auto]]].
  - apply (lookup_filter_names
             (fun n => String.eqb n STATIC_CACHE || String.eqb n DYNAMIC_CACHE)).
    reflexivity.
  - apply (lookup_filter_names
             (fun n => String.eqb n STATIC_CACHE || String.eqb n DYNAMIC_CACHE)).
    reflexivity.
Qed.

(** ** Control messages, continued *)

(** X10: a message whose payload has the type SKIP_WAITING makes the worker
    call [skipWaiting] and nothing else: the handler completes, no reply is
    posted, no cache changes and nothing is fetched. *)
Theorem skip_waiting_message_only_skips_waiting
    (origin : string) (net : request -> outcome response)
    (event : message_event) (w : world) :
  data_type_is event "SKIP_WAITING" = true ->
  fst (on_message origin net event w) = Fulfilled tt /\
  skip_waiting (snd (on_message origin net event w)) = true /\
  caches (snd (on_message origin net event w)) = caches w /\
  posted (snd (on_message origin net event w)) = posted w /\
  net_calls (snd (on_message origin net event w)) = net_calls w /\
  pending (snd (on_message origin net event w)) = pending w.
Proof.
  intros Hd. apply data_type_is_true in Hd.
  unfold on_message, data_type_is. rewrite Hd. cbn. auto 10.
Qed.

(** X11: a message the handler does not know (no payload, or a payload of
    another type than the three it tests for) is logged and otherwise
    ignored: the handler completes and the world only gains that console
    line. *)
Theorem unknown_message_is_only_logged
    (origin : string) (net : request -> outcome response)
    (event : message_event) (w : world) :
  data_type_is event "SKIP_WAITING" = false ->
  data_type_is event "GET_VERSION" = false ->
  data_type_is event "CACHE_UPDATE" = false ->
  on_message origin net event w =
  (Fulfilled tt,
   add_console
     (ConsoleLog ["Service Worker: Message received";
                  match data event with Some d => data_type d | None => "null" end])
     w).
Proof.
  intros H1 H2 H3. unfold on_message, then_, console_log.
  rewrite H1, H2, H3. reflexivity.
Qed.

(** X12: a GET_VERSION message that brings no port makes the handler throw:
    [event.ports[0]] is [undefined], so nothing is posted, on any port, and
    no cache changes. *)
Theorem get_version_without_port_throws
    (origin : string) (net : request -> outcome response)
    (event : message_event) (w : world) :
  data_type_is event "GET_VERSION" = true ->
  ports event = [] ->
  fst (on_message origin net event w)
    = Rejected (TypeError "Cannot read properties of undefined") /\
  posted (snd (on_message origin net event w)) = posted w /\
  caches (snd (on_message origin net event w)) = caches w.
Proof.
  intros Hd Hp. apply data_type_is_true in Hd.
  unfold on_message, data_type_is, port_postMessage. rewrite Hd, Hp. cbn. auto.
Qed.

Lemma has_delete (name : string) (cs : list (string * cache)) :
  CacheStorage.has name (CacheStorage.delete name cs) = false.
Proof. rewrite has_lookup, lookup_delete_eq. reflexivity. Qed.

Lemma open_delete (name : string) (cs : list (string * cache)) :
  CacheStorage.open name (CacheStorage.delete name cs)
    = (CacheStorage.delete name cs ++ [(name, ∅)])%list.
Proof. unfold CacheStorage.open. rewrite has_delete. reflexivity. Qed.

Lemma store_all_fresh (name : string) (entries : list (string * response))
    (cs : list (string * cache)) (c : cache) :
  CacheStorage.has name cs = false ->
  store_all name entries (cs ++ [(name, c)])
    = (cs ++ [(name, insert_all entries c)])%list.
Proof.
  intros Hno. rewrite store_all_map, List.map_app. cbn.
  rewrite String.eqb_refl. f_equal.
  unfold CacheStorage.has, CacheStorage.keys in Hno.
  induction cs as [ | [n c0] cs IH]; cbn in *; [reflexivity | ].
  apply orb_false_iff in Hno. destruct Hno as [Hn Hrest].
  rewrite String.eqb_sym, Hn. f_equal. apply IH, Hrest.
Qed.

(** The partitions a CACHE_UPDATE message leaves. *)
Lemma on_message_update_run
    (origin : string) (net : request -> outcome response)
    (event : message_event) (w : world) :
  data_type_is event "CACHE_UPDATE" = true ->
  caches (snd (on_message origin net event w))
    = (CacheStorage.delete STATIC_CACHE (caches w)
       ++ [(STATIC_CACHE,
            if manifest_ok origin net
            then insert_all (entries_of origin net STATIC_FILES) ∅
            else ∅)])%list.
Proof.
  intros Hd. apply data_type_is_true in Hd.
  unfold on_message, data_type_is, waitUntil, then_, console_log, caches_delete,
    caches_open, manifest_ok.
  rewrite Hd. cbn.
  set (w1 := set_caches _ (set_caches _ (add_console _ w))).
  assert (Hc1 : caches w1
                = (CacheStorage.delete STATIC_CACHE (caches w)
                   ++ [(STATIC_CACHE, ∅)])%list)
    by (subst w1; cbn; apply open_delete).
  pose proof (cache_addAll_run origin net STATIC_CACHE STATIC_FILES w1) as Hrun.
  destruct (paths_ok origin net STATIC_FILES).
  - destruct Hrun as [_ Hcs]. rewrite Hcs, Hc1.
    apply store_all_fresh, has_delete.
  - destruct Hrun as [_ Hcs]. rewrite Hcs. exact Hc1.
Qed.

(** X13: a CACHE_UPDATE message re-creates the static cache as the newest
    partition: afterwards it is the last one in creation order, so a cache
    lookup prefers the entry of any other partition (the dynamic cache, for
    one) to the refreshed static entry for the same URL, and falls back to
    the static cache only when no other partition has the URL. *)
Theorem cache_update_puts_static_cache_last
    (origin : string) (net : request -> outcome response)
    (event : message_event) (w : world) (u : string) :
  data_type_is event "CACHE_UPDATE" = true ->
  caches (snd (on_message origin net event w))
    = (CacheStorage.delete STATIC_CACHE (caches w)
       ++ [(STATIC_CACHE,
            if manifest_ok origin net
            then insert_all (entries_of origin net STATIC_FILES) ∅
            else ∅)])%list /\
  CacheStorage.match_ u (caches (snd (on_message origin net event w)))
    = match CacheStorage.match_ u (CacheStorage.delete STATIC_CACHE (caches w)) with
      | Some r => Some r
      | None => (if manifest_ok origin net
                 then insert_all (entries_of origin net STATIC_FILES) ∅
                 else ∅) !! u
      end.
Proof.
  intros Hd. rewrite (on_message_update_run origin net event w Hd).
  split; [reflexivity | ]. rewrite match_app. cbn.
  destruct (CacheStorage.match_ u (CacheStorage.delete STATIC_CACHE (caches w)));
    [reflexivity | ].
  destruct (_ !! u); reflexivity.
Qed.

(** ** Notifications and background sync *)

(** X14: a click on a notification always closes that notification, and
    opens the site root in a window unless the clicked action is "close":
    the "explore" action, any other action and a click outside the action
    buttons all open it.  The handler completes and touches nothing else
    than the console. *)
Theorem notification_click_opens_site_unless_close
    (n : notification) (act : string) (d : desktop) :
  fst (on_notificationclick n act d) = Fulfilled tt /\
  closed (snd (on_notificationclick n act d)) = (closed d ++ [n])%list /\
  opened (snd (on_notificationclick n act d))
    = (if String.eqb act "close" then opened d else opened d ++ ["/"])%list /\
  shown (snd (on_notificationclick n act d)) = shown d /\
  same_but_console (worker d) (worker (snd (on_notificationclick n act d))).
Proof.
  unfold on_notificationclick, ui_then, ui_lift, console_log, notification_close,
    clients_openWindow, same_but_console.
  destruct (String.eqb_spec act "explore") as [-> | NE]; cbn.
  - tauto.
  - destruct (String.eqb act "close"); cbn; tauto.
Qed.

(** X15: with the notification permission granted, a push shows exactly
    one notification, whose body is the text of the payload (the default
    text when the push has none) and which offers the two actions the click
    handler tells apart: clicking its first action opens the site root,
    clicking its second opens nothing.  Without the permission, the
    handler's promise rejects and nothing is shown. *)
Theorem push_notification_matches_click_handler
    (data : option string) (now : Z) (d : desktop) :
  (permission_granted d = true ->
   fst (on_push data now d) = Fulfilled tt /\
   shown (snd (on_push data now d)) = (shown d ++ [push_notification data now])%list /\
   n_body (push_notification data now)
     = match data with Some text => text | None => "Neue Inhalte verfügbar!" end /\
   map action (n_actions (push_notification data now)) = ["explore"; "close"] /\
   forall a, In a (n_actions (push_notification data now)) ->
     opened (snd (on_notificationclick (push_notification data now) (action a)
                    (snd (on_push data now d))))
       = (if String.eqb (action a) "explore" then opened d ++ ["/"] else opened d)%list) /\
  (permission_granted d = false ->
   (exists e, fst (on_push data now d) = Rejected e) /\
   shown (snd (on_push data now d)) = shown d).
Proof.
  unfold on_push, ui_then, ui_lift, console_log, showNotification. cbn.
  split; intros Hp; rewrite Hp; cbn.
  - split; [reflexivity | ]. split; [reflexivity | ]. split; [reflexivity | ].
    split; [reflexivity | ].
    intros a [<- | [<- | []]]; reflexivity.
  - split; [eauto | reflexivity].
Qed.

(** X16: the sync, error and unhandledrejection handlers complete and only
    write to the console: no cache, flag, message or network call changes.
    The sync handler logs the completion line exactly when the tag is
    "background-sync". *)
Theorem passive_handlers_only_log (tag : string) (e : error) (w : world) :
  fst (on_sync tag w) = Fulfilled tt /\
  same_but_console w (snd (on_sync tag w)) /\
  console (snd (on_sync tag w))
    = (console w ++ [ConsoleLog ["Service Worker: Background sync triggered"]]
       ++ if String.eqb tag "background-sync"
          then [ConsoleLog ["Service Worker: Background sync completed"]]
          else [])%list /\
  on_error e w
    = (Fulfilled tt, add_console (ConsoleError "Service Worker: Error occurred" e) w) /\
  on_unhandledrejection e w
    = (Fulfilled tt,
       add_console (ConsoleError "Service Worker: Unhandled promise rejection" e) w).
Proof.
  unfold on_sync, waitUntil, then_, console_log, ret, same_but_console.
  destruct (String.eqb tag "background-sync"); cbn.
  - rewrite <- app_assoc. cbn. tauto.
  - tauto.
Qed.

(** *** Concrete instances *)

Lemma offline_fallback_by_accept_header_witness :
  (method gallery_request = "GET" /\
   startsWith (url gallery_request) site_origin = true /\
   CacheStorage.match_ (url gallery_request) (caches installed_world) = None /\
   net_down gallery_request = Rejected (NetworkError "Failed to fetch") /\
   headers_get (req_headers gallery_request) "accept" = Some "text/html") /\
  (fst (on_fetch site_origin net_down gallery_request installed_world) =
     RespondWith
       (if includes "text/html" "text/html"
        then Fulfilled (CacheStorage.match_ (resolve site_origin "/index.html")
                          (caches installed_world))
        else if includes "text/html" "image"
             then Fulfilled (Some placeholder_image)
             else Rejected (NetworkError "Failed to fetch")) /\
   pending (snd (on_fetch site_origin net_down gallery_request installed_world))
     = pending installed_world).
Proof.
  split.
  - by_evaluation.
  - apply (offline_fallback_by_accept_header site_origin net_down gallery_request
             installed_world (NetworkError "Failed to fetch") "text/html");
      vm_compute; reflexivity.
Defined.

Lemma offline_image_is_an_svg_response_witness :
  (method photo_request = "GET" /\
   startsWith (url photo_request) site_origin = true /\
   CacheStorage.match_ (url photo_request) (caches installed_world) = None /\
   net_down photo_request = Rejected (NetworkError "Failed to fetch") /\
   headers_get (req_headers photo_request) "accept"
     = Some "image/avif,image/webp,*/*" /\
   includes "image/avif,image/webp,*/*" "text/html" = false /\
   includes "image/avif,image/webp,*/*" "image" = true) /\
  (exists r,
     fst (on_fetch site_origin net_down photo_request installed_world)
       = RespondWith (Fulfilled (Some r)) /\
     ok r = true /\ status r = 200 /\
     headers_get (resp_headers r) "Content-Type" = Some "image/svg+xml" /\
     includes (body r) "<svg" = true).
Proof.
  split.
  - by_evaluation.
  - apply (offline_image_is_an_svg_response site_origin net_down photo_request
             installed_world (NetworkError "Failed to fetch")
             "image/avif,image/webp,*/*");
      vm_compute; reflexivity.
Defined.

Lemma fetch_never_writes_outside_dynamic_cache_witness :
  (Forall (fun t => task_cache t = DYNAMIC_CACHE) (pending installed_world) /\
   STATIC_CACHE <> DYNAMIC_CACHE) /\
  CacheStorage.lookup STATIC_CACHE
    (caches (run_pending (snd (on_fetch site_origin net_up gallery_request
                                 installed_world))))
    = CacheStorage.lookup STATIC_CACHE (caches installed_world).
Proof.
  split.
  - split; [vm_compute; constructor | discriminate].
  - apply (fetch_never_writes_outside_dynamic_cache site_origin net_up
             gallery_request installed_world STATIC_CACHE);
      [vm_compute; constructor | discriminate].
Defined.


Lemma offline_navigation_after_install_gets_home_document_witness :
  (manifest_ok site_origin net_up = true /\
   method gallery_request = "GET" /\
   startsWith (url gallery_request) site_origin = true /\
   CacheStorage.match_ (url gallery_request)
     (caches (snd (on_install site_origin net_up empty_world))) = None /\
   net_down gallery_request = Rejected (NetworkError "Failed to fetch") /\
   headers_get (req_headers gallery_request) "accept" = Some "text/html" /\
   includes "text/html" "text/html" = true) /\
  (exists r,
     fst (on_fetch site_origin net_down gallery_request
            (snd (on_install site_origin net_up empty_world)))
       = RespondWith (Fulfilled (Some r)) /\
     (lacks_outside STATIC_CACHE (resolve site_origin "/index.html")
        (caches empty_world) ->
      net_up (get_request (resolve site_origin "/index.html")) = Fulfilled r)).
Proof.
  split.
  - by_evaluation.
  - apply (offline_navigation_after_install_gets_home_document site_origin net_up
             net_down empty_world gallery_request
             (NetworkError "Failed to fetch") "text/html");
      vm_compute; reflexivity.
Defined.

Lemma skip_waiting_message_only_skips_waiting_witness :
  data_type_is skip_event "SKIP_WAITING" = true /\
  (fst (on_message site_origin net_down skip_event empty_world) = Fulfilled tt /\
   skip_waiting (snd (on_message site_origin net_down skip_event empty_world)) = true /\
   caches (snd (on_message site_origin net_down skip_event empty_world))
     = caches empty_world /\
   posted (snd (on_message site_origin net_down skip_event empty_world))
     = posted empty_world /\
   net_calls (snd (on_message site_origin net_down skip_event empty_world))
     = net_calls empty_world /\
   pending (snd (on_message site_origin net_down skip_event empty_world))
     = pending empty_world).
Proof.
  split.
  - vm_compute. reflexivity.
  - apply (skip_waiting_message_only_skips_waiting site_origin net_down skip_event
             empty_world).
    vm_compute. reflexivity.
Defined.

Lemma unknown_message_is_only_logged_witness :
  (data_type_is ping_event "SKIP_WAITING" = false /\
   data_type_is ping_event "GET_VERSION" = false /\
   data_type_is ping_event "CACHE_UPDATE" = false) /\
  on_message site_origin net_up ping_event installed_world =
  (Fulfilled tt,
   add_console
     (ConsoleLog ["Service Worker: Message received";
                  match data ping_event with Some d => data_type d | None => "null" end])
     installed_world).
Proof.
  split.
  - by_evaluation.
  - apply (unknown_message_is_only_logged site_origin net_up ping_event
             installed_world); vm_compute; reflexivity.
Defined.

Lemma get_version_without_port_throws_witness :
  (data_type_is portless_version_event "GET_VERSION" = true /\
   ports portless_version_event = []) /\
  (fst (on_message site_origin net_up portless_version_event installed_world)
     = Rejected (TypeError "Cannot read properties of undefined") /\
   posted (snd (on_message site_origin net_up portless_version_event installed_world))
     = posted installed_world /\
   caches (snd (on_message site_origin net_up portless_version_event installed_world))
     = caches installed_world).
Proof.
  split.
  - by_evaluation.
  - apply (get_version_without_port_throws site_origin net_up
             portless_version_event installed_world); vm_compute; reflexivity.
Defined.

Lemma cache_update_puts_static_cache_last_witness :
  data_type_is update_event "CACHE_UPDATE" = true /\
  (caches (snd (on_message site_origin net_up update_event installed_world))
     = (CacheStorage.delete STATIC_CACHE (caches installed_world)
        ++ [(STATIC_CACHE,
             if manifest_ok site_origin net_up
             then insert_all (entries_of site_origin net_up STATIC_FILES) ∅
             else ∅)])%list /\
   CacheStorage.match_ (resolve site_origin "/index.html")
     (caches (snd (on_message site_origin net_up update_event installed_world)))
     = match CacheStorage.match_ (resolve site_origin "/index.html")
               (CacheStorage.delete STATIC_CACHE (caches installed_world)) with
       | Some r => Some r
       | None => (if manifest_ok site_origin net_up
                  then insert_all (entries_of site_origin net_up STATIC_FILES) ∅
                  else ∅) !! resolve site_origin "/index.html"
       end).
Proof.
  split.
  - vm_compute. reflexivity.
  - apply (cache_update_puts_static_cache_last site_origin net_up update_event
             installed_world (resolve site_origin "/index.html")).
    vm_compute. reflexivity.
Defined.

(** * Properties of the Etsy product manager *)

Module EtsyProperties.

Import Etsy.

(** X17: without a usable API key (no [CONFIG], no [etsy] member, no key,
    an empty key, or the placeholder key of the example configuration) the
    manager built by the constructor resolves with the fallback products and
    sends no request at all. *)
Theorem load_without_key_uses_fallback
    (CONFIG : global_config) (net : api_request -> failure + api_response) :
  truthy_string (configured_apiKey CONFIG) = false \/
  configured_apiKey CONFIG = Some "IHR_API_KEY_HIER" ->
  products (loadEtsyProducts (new_manager CONFIG) net) = getFallbackProducts /\
  requests (loadEtsyProducts (new_manager CONFIG) net) = [] /\
  logged (loadEtsyProducts (new_manager CONFIG) net) = [NoKeyConfigured].
Proof.
  intros [Hfalsy | Hplaceholder]; unfold loadEtsyProducts, new_manager; cbn.
  - rewrite Hfalsy. cbn. auto.
  - rewrite Hplaceholder. cbn. auto.
Qed.

Lemma load_without_key_uses_fallback_witness :
  (truthy_string (configured_apiKey example_config) = false \/
   configured_apiKey example_config = Some "IHR_API_KEY_HIER") /\
  (products (loadEtsyProducts (new_manager example_config)
               (fun _ => inr (ApiResponse true (Parsed (Some [])))))
     = getFallbackProducts /\
   requests (loadEtsyProducts (new_manager example_config)
               (fun _ => inr (ApiResponse true (Parsed (Some [])))))
     = [] /\
   logged (loadEtsyProducts (new_manager example_config)
             (fun _ => inr (ApiResponse true (Parsed (Some [])))))
     = [NoKeyConfigured]).
Proof.
  split.
  - right. reflexivity.
  - apply (load_without_key_uses_fallback example_config). right. reflexivity.
Defined.



Lemma NoDup_map_injective {A B} (f : A -> B) (l : list A) :
  (forall x y, f x = f y -> x = y) -> NoDup l -> NoDup (map f l).
Proof.
  intros Hinj. induction 1 as [ | x l Hx Hl IH]; cbn; constructor; [ | exact IH].
  rewrite list_elem_of_In, in_map_iff. intros (y & Hy & Hin).
  apply Hinj in Hy. subst y. apply Hx, list_elem_of_In, Hin.
Qed.

(** X19: formatting keeps one product per listing, in order, and gives
    listings with different ids products with different ids. *)
Theorem formatted_ids_are_distinct (etsyProducts : list listing) :
  NoDup (map l_listing_id etsyProducts) ->
  length (formatEtsyProducts etsyProducts) = length etsyProducts /\
  map p_title (formatEtsyProducts etsyProducts) = map l_title etsyProducts /\
  NoDup (map p_id (formatEtsyProducts etsyProducts)).
Proof.
  intros Hnd. unfold formatEtsyProducts.
  split; [apply List.length_map | ]. split; [rewrite List.map_map; reflexivity | ].
  assert (Hids : map p_id (map formatEtsyProduct etsyProducts)
                 = map (fun n : N => "etsy-" ++ pretty n)
                       (map l_listing_id etsyProducts))
    by (rewrite !List.map_map; reflexivity).
  rewrite Hids. apply NoDup_map_injective; [ | exact Hnd].
  intros a b Heq. cbn in Heq. injection Heq as Heq.
  exact (pretty_N_inj a b Heq).
Qed.

Lemma formatted_ids_are_distinct_witness :
  NoDup (map l_listing_id
           [Listing 11 "a" "b" "1.00" [] [] "u" 1;
            Listing 12 "c" "d" "2.00" [] [] "v" 0]) /\
  NoDup (map p_id (formatEtsyProducts
                     [Listing 11 "a" "b" "1.00" [] [] "u" 1;
                      Listing 12 "c" "d" "2.00" [] [] "v" 0])).
Proof.
  assert (H : NoDup (map l_listing_id
                       [Listing 11 "a" "b" "1.00" [] [] "u" 1;
                        Listing 12 "c" "d" "2.00" [] [] "v" 0])).
  { cbn. repeat constructor; rewrite ?list_elem_of_In; cbn;
      intuition discriminate. }
  split; [exact H | ].
  exact (proj2 (proj2 (formatted_ids_are_distinct _ H))).
Defined.




Lemma some_tag_includes_spec (tags : list string) (a b : string) :
  some_tag_includes tags a b = true <->
  exists tag, In tag tags /\ (includes tag a = true \/ includes tag b = true).
Proof.
  unfold some_tag_includes. rewrite existsb_exists.
  split; intros (tag & Hin & H); exists tag; (split; [exact Hin | ]).
  - apply orb_true_iff, H.
  - apply orb_true_iff, H.
Qed.


(** X21: how tags decide the category: "templates" exactly when some tag
    contains digital or template; "seasonal" exactly when no tag contains
    digital, template, diy or anleitung and some tag contains weihnacht or
    ostern; "diy" in every other case, the empty tag list included.  The
    test is by containment and case-sensitive. *)
Theorem category_is_decided_by_tags (tags : list string) :
  (categorizeProduct tags = "templates" <->
   exists tag, In tag tags /\
               (includes tag "digital" = true \/ includes tag "template" = true)) /\
  (categorizeProduct tags = "seasonal" <->
   (forall tag, In tag tags ->
      includes tag "digital" = false /\ includes tag "template" = false /\
      includes tag "diy" = false /\ includes tag "anleitung" = false) /\
   exists tag, In tag tags /\
               (includes tag "weihnacht" = true \/ includes tag "ostern" = true)) /\
  (categorizeProduct tags <> "templates" -> categorizeProduct tags <> "seasonal" ->
   categorizeProduct tags = "diy") /\
  categorizeProduct [] = "diy".
Proof.
  assert (Hnone : forall a b,
            some_tag_includes tags a b = false <->
            forall tag, In tag tags ->
              includes tag a = false /\ includes tag b = false).
  { intros a b. unfold some_tag_includes. split.
    - intros H tag Hin. apply orb_false_iff.
      destruct (includes tag a || includes tag b) eqn:E; [ | reflexivity].
      assert (Hex : existsb (fun t => includes t a || includes t b) tags = true)
        by (apply existsb_exists; eauto).
      congruence.
    - intros H. destruct (existsb _ tags) eqn:E; [ | reflexivity].
      apply existsb_exists in E. destruct E as (tag & Hin & Ht).
      destruct (H tag Hin) as [Ha Hb]. rewrite Ha, Hb in Ht. discriminate. }
  unfold categorizeProduct.
  destruct (some_tag_includes tags "digital" "template") eqn:E1.
  - apply some_tag_includes_spec in E1.
    split; [tauto | ]. split; [ | split; [congruence | reflexivity]].
    split; [discriminate | ]. intros [Hall _].
    destruct E1 as (tag & Hin & [H | H]); destruct (Hall tag Hin) as (? & ? & _);
      congruence.
  - pose proof (proj1 (Hnone _ _) E1) as N1.
    destruct (some_tag_includes tags "diy" "anleitung") eqn:E2.
    + apply some_tag_includes_spec in E2.
      split; [split; [discriminate | ] | ].
      * intros (tag & Hin & [H | H]); destruct (N1 tag Hin); congruence.
      * split; [ | split; [reflexivity | reflexivity]].
        split; [discriminate | ]. intros [Hall _].
        destruct E2 as (tag & Hin & [H | H]);
          destruct (Hall tag Hin) as (_ & _ & ? & ?); congruence.
    + pose proof (proj1 (Hnone _ _) E2) as N2.
      destruct (some_tag_includes tags "weihnacht" "ostern") eqn:E3.
      * apply some_tag_includes_spec in E3.
        split; [split; [discriminate | ] | ].
        -- intros (tag & Hin & [H | H]); destruct (N1 tag Hin); congruence.
        -- split; [ | split; [congruence | reflexivity]].
           split; [intros _ | reflexivity].
           split; [ | exact E3].
           intros tag Hin. destruct (N1 tag Hin), (N2 tag Hin). auto.
      * pose proof (proj1 (Hnone _ _) E3) as N3.
        split; [split; [discriminate | ] | ].
        -- intros (tag & Hin & [H | H]); destruct (N1 tag Hin); congruence.
        -- split; [ | split; [reflexivity | reflexivity]].
           split; [discriminate | ].
           intros [_ (tag & Hin & [H | H])]; destruct (N3 tag Hin); congruence.
Qed.

End EtsyProperties.

(** * Properties of the bookmarks *)

Module BookmarksProperties.

Import Bookmarks.

Lemma array_includes_spec (bookmarks : list Z) (id : Z) :
  array_includes bookmarks id = true <-> In id bookmarks.
Proof.
  unfold array_includes. rewrite existsb_exists. split.
  - intros (x & Hin & Hx). apply Z.eqb_eq in Hx. subst x. exact Hin.
  - intros Hin. exists id. split; [exact Hin | apply Z.eqb_refl].
Qed.

(** X22: bookmarking a project, when the stored text can be parsed, leaves
    the project bookmarked, keeps the earlier bookmarks in their order, and
    never stores an id twice: a duplicate-free list stays duplicate-free.
    Bookmarking the same project again changes nothing and shows no
    notification; the notification is shown exactly when the project was
    not bookmarked before. *)
Theorem bookmarking_is_idempotent_and_duplicate_free
    (project_id : Z) (item : stored) (bookmarks : list Z) :
  parse item = Some bookmarks ->
  exists item' bookmarks' notified,
    bookmarkProject project_id item = Some (item', notified) /\
    parse item' = Some bookmarks' /\
    In project_id bookmarks' /\
    (exists added, bookmarks' = (bookmarks ++ added)%list) /\
    (NoDup bookmarks -> NoDup bookmarks') /\
    (notified = true <-> ~ In project_id bookmarks) /\
    bookmarkProject project_id item' = Some (item', false).
Proof.
  intros Hp. unfold bookmarkProject. rewrite Hp.
  destruct (array_includes bookmarks project_id) eqn:E; cbn.
  - exists item, bookmarks, false. rewrite Hp, E. cbn.
    apply array_includes_spec in E.
    split; [reflexivity | ]. split; [reflexivity | ]. split; [exact E | ].
    split; [exists []; symmetry; apply app_nil_r | ].
    split; [auto | ]. split; [ | reflexivity].
    split; [discriminate | intros Hn; contradiction].
  - assert (Hnot : ~ In project_id bookmarks).
    { intros Hin. apply array_includes_spec in Hin. congruence. }
    exists (JsonArray (bookmarks ++ [project_id])), (bookmarks ++ [project_id])%list, true.
    assert (E' : array_includes (bookmarks ++ [project_id]) project_id = true).
    { apply array_includes_spec, in_or_app. right. left. reflexivity. }
    cbn. rewrite E'. cbn.
    split; [reflexivity | ]. split; [reflexivity | ].
    split; [apply in_or_app; right; left; reflexivity | ].
    split; [eauto | ].
    split; [ | split; [split; auto | reflexivity]].
    intros Hnd. apply NoDup_app. split; [exact Hnd | ]. split.
    + intros x Hx Hx'. apply list_elem_of_In in Hx.
      apply list_elem_of_In in Hx'. destruct Hx' as [<- | []]. contradiction.
    + repeat constructor. rewrite list_elem_of_In. intros [].
Qed.

Lemma bookmarking_is_idempotent_and_duplicate_free_witness :
  parse (JsonArray [3; 1]) = Some [3; 1] /\
  exists item' bookmarks' notified,
    bookmarkProject 5 (JsonArray [3; 1]) = Some (item', notified) /\
    parse item' = Some bookmarks' /\
    In 5 bookmarks' /\
    (exists added, bookmarks' = ([3; 1] ++ added)%list) /\
    (NoDup [3; 1] -> NoDup bookmarks') /\
    (notified = true <-> ~ In 5 [3; 1]) /\
    bookmarkProject 5 item' = Some (item', false).
Proof.
  split; [reflexivity | ].
  apply (bookmarking_is_idempotent_and_duplicate_free 5 (JsonArray [3; 1]) [3; 1]).
  reflexivity.
Defined.

End BookmarksProperties.

(** * Properties of the difficulty stars *)

Module StarsProperties.

Import Stars.

(** X23: the star rating of a difficulty level between 0 and 3 has exactly
    three stars, the first [level] of them filled and the others hollow; for
    any other integer level the expression throws (a negative repeat count)
    and no rating is produced. *)
Theorem difficulty_stars_need_level_between_0_and_3 (level : Z) :
  (0 <= level <= 3 ->
   difficultyStars level
     = Some (List.repeat Filled (Z.to_nat level)
             ++ List.repeat Hollow (3 - Z.to_nat level))%list /\
   forall l, difficultyStars level = Some l -> length l = 3%nat) /\
  (level < 0 \/ 3 < level -> difficultyStars level = None).
Proof.
  unfold difficultyStars, repeat. split.
  - intros [Hlo Hhi].
    destruct (Z.ltb_spec level 0) as [H | _]; [lia | ].
    destruct (Z.ltb_spec (3 - level) 0) as [H | _]; [lia | ].
    replace (Z.to_nat (3 - level)) with (3 - Z.to_nat level)%nat by lia.
    split; [reflexivity | ].
    intros l [= <-]. rewrite List.length_app, !List.repeat_length. lia.
  - intros [H | H].
    + destruct (Z.ltb_spec level 0) as [_ | H']; [reflexivity | lia].
    + destruct (Z.ltb_spec level 0) as [_ | _]; [reflexivity | ].
      destruct (Z.ltb_spec (3 - level) 0) as [_ | H']; [reflexivity | lia].
Qed.

End StarsProperties.
